(** * opi-nvidia-bridge: the virtio-blk front end (pkg/frontend/virtio.go)

    A shallow embedding of the six handlers of the virtio-blk service
    (CreateVirtioBlk, DeleteVirtioBlk, UpdateVirtioBlk, ListVirtioBlks,
    GetVirtioBlk, VirtioBlkStats) and of [sortVirtioBlks], followed by the
    properties of the resource lifecycle and of pagination.

    Conventions of the embedding
    - Go [int], [int32] and [int64] values are integers of [Z]; the one
      narrowing conversion of the source, [int32(...)], and the one addition,
      [offset + size], have their wrap-around written out.
    - A protobuf message field of pointer type is an [option]; reading a
      field through a nil pointer is the outcome [Panic].
    - The two maps of the server ([VirtioCtrls], [Pagination]) are [gmap]s
      keyed by strings.  The handlers never write through a pointer stored
      in [VirtioCtrls], so the stored messages are kept by value.
    - The handlers run in a state-and-error monad over the server state and
      the log of the JSON-RPC calls issued to the backend.  What the backend
      answers, and the random identifiers drawn during a call, are read from
      an environment [Env] that is an argument of each handler.
    - A handler runs from its first statement to its return without
      another handler running in between; the source takes no lock, and
      what interleaved handlers do is outside this development.
    - [log.Printf] output is not modelled. *)

From stdpp Require Import gmap strings list fin_maps sorting.
From Stdlib Require Import ZArith Ascii.
From Stdlib Require OrderedTypeEx.

Open Scope Z_scope.

(** ** Errors *)

(** google.golang.org/grpc/codes: the codes the handlers use, and [Unknown],
    which is what the transport reports for an error that carries no status. *)
Inductive Code := InvalidArgument | NotFound | Unimplemented | Unknown.

(** A Go [error] value, recorded by the call that built it: [status.Errorf]
    with its code, format and operands, [fmt.Errorf] with its format and
    operands, or an error handed over by a library or by the RPC client. *)
Inductive error :=
  | status_Errorf (c : Code) (format : string) (a : list string)
  | fmt_Errorf (format : string) (a : list string)
  | foreign_error (origin msg : string).

(** [status.Code(err)] *)
Definition status_Code (e : error) : Code :=
  match e with
  | status_Errorf c _ _ => c
  | _ => Unknown
  end.

(** ** Messages of the API (opi-api storage/v1alpha1) *)

Record ObjectKey := { Value : string }.

Record PciEndpoint :=
  { PortId : Z; PhysicalFunction : Z; VirtualFunction : Z }.

Record VirtioBlk :=
  { Name : string;
    PcieId : option PciEndpoint;
    VolumeId : option ObjectKey;
    MaxIoQps : Z }.

Record CreateVirtioBlkRequest :=
  { create_VirtioBlk : option VirtioBlk;
    create_VirtioBlkId : string }.

Record DeleteVirtioBlkRequest :=
  { delete_Name : string;
    delete_AllowMissing : bool }.

Record UpdateVirtioBlkRequest :=
  { update_VirtioBlk : option VirtioBlk;
    update_UpdateMask : option (list string);
    update_AllowMissing : bool }.

Record ListVirtioBlksRequest :=
  { list_PageSize : Z;
    list_PageToken : string }.

Record ListVirtioBlksResponse :=
  { VirtioBlks : list VirtioBlk;
    NextPageToken : string }.

Record GetVirtioBlkRequest := { get_Name : string }.

Record VirtioBlkStatsRequest := { stats_ControllerId : option ObjectKey }.

Record VolumeStats := { ReadOpsCount : Z; WriteOpsCount : Z }.

Record VirtioBlkStatsResponse :=
  { stats_Id : option ObjectKey;
    stats_Stats : option VolumeStats }.

(** [emptypb.Empty] *)
Inductive Empty := mkEmpty.

(** ** Backend messages (pkg/models) *)

(** Modelled from the spec: the parameter and result types of package
    [models] are declared in pkg/models, not in pkg/frontend; the fields are
    the ones the handlers read and write, as listed in the spec's section 6.  The
    handlers fill the numeric fields with [int(...)] and read them with
    [int32(...)]: they are Go [int]s. *)
Record NvdaControllerVirtioBlkCreateParams :=
  { Serial : string;
    Bdev : string;
    PfID : Z;
    NumQueues : Z;
    BdevType : string;
    EmulationManager : string }.

Record NvdaControllerVirtioBlkDeleteParams :=
  { del_Name : string; del_Force : bool }.

Record NvdaControllerListResult :=
  { ctrl_Name : string; ctrl_Type : string; ctrl_PciIndex : Z }.

Record NvdaBdevStats :=
  { BdevName : string; ReadIos : Z; WriteIos : Z }.

Record NvdaControllerStats :=
  { stat_Name : string; Bdevs : list NvdaBdevStats }.

Record NvdaControllerNvmeStatsResult :=
  { Controllers : list NvdaControllerStats }.

(** One JSON-RPC call as [s.rpc.Call] sends it: the method and its
    parameters. *)
Inductive RpcCall :=
  | controller_virtio_blk_create (p : NvdaControllerVirtioBlkCreateParams)
  | controller_virtio_blk_delete (p : NvdaControllerVirtioBlkDeleteParams)
  | controller_list
  | controller_virtio_blk_get_iostat.

(** ** Server state *)

Record Server :=
  { VirtioCtrls : gmap string VirtioBlk;
    Pagination : gmap string Z }.

Definition set_VirtioCtrls (f : gmap string VirtioBlk → gmap string VirtioBlk)
    (s : Server) : Server :=
  {| VirtioCtrls := f (VirtioCtrls s); Pagination := Pagination s |}.

Definition set_Pagination (f : gmap string Z → gmap string Z)
    (s : Server) : Server :=
  {| VirtioCtrls := VirtioCtrls s; Pagination := f (Pagination s) |}.

(** What one handler invocation reads from outside the process: the answer
    of the backend to each method (an error of the RPC client, or the decoded
    result), the identifier [resourceid.NewSystemGenerated] draws and the
    string of the UUID [uuid.New] draws. *)
Record Env :=
  { rpc_create : NvdaControllerVirtioBlkCreateParams → error + string;
    rpc_delete : NvdaControllerVirtioBlkDeleteParams → error + bool;
    rpc_list : error + list NvdaControllerListResult;
    rpc_iostat : error + NvdaControllerNvmeStatsResult;
    resourceid_NewSystemGenerated : string;
    uuid_New_String : string }.

(** ** The handler monad *)

Inductive Res (A : Type) :=
  | Ok (a : A)
  | Err (e : error)
  | Panic.
Arguments Ok {A} a.
Arguments Err {A} e.
Arguments Panic {A}.

Record World := { server : Server; calls : list RpcCall }.

Definition M (A : Type) : Type := World → Res A * World.

#[global] Instance M_ret : MRet M := λ A a w, (Ok a, w).

#[global] Instance M_bind : MBind M := λ A B f m w,
  match m w with
  | (Ok a, w') => f a w'
  | (Err e, w') => (Err e, w')
  | (Panic, w') => (Panic, w')
  end.

(** [return nil, err] *)
Definition throw {A} (e : error) : M A := λ w, (Err e, w).

(** a run-time panic *)
Definition panic {A} : M A := λ w, (Panic, w).

(** reading through a pointer: a nil pointer dereference panics *)
Definition deref {A} (p : option A) : M A :=
  match p with
  | Some a => mret a
  | None => panic
  end.

Definition gets {A} (f : Server → A) : M A := λ w, (Ok (f (server w)), w).

Definition modify (f : Server → Server) : M unit := λ w,
  (Ok tt, {| server := f (server w); calls := calls w |}).

(** [err := s.rpc.Call(method, params, &result); if err != nil { return nil, err }] *)
Definition rpc_Call {A} (c : RpcCall) (reply : error + A) : M A := λ w,
  let w' := {| server := server w; calls := calls w ++ [c] |} in
  match reply with
  | inl err => (Err err, w')
  | inr result => (Ok result, w')
  end.

(** [if err := validate(...); err != nil { return nil, err }] *)
Definition check (r : option error) : M unit :=
  match r with
  | Some err => throw err
  | None => mret tt
  end.

(** ** Collaborators from other packages *)

(** The helpers of go.einride.tech/aip and of opi-spdk-bridge/pkg/server the
    handlers call.  Their sources are not part of this repository, so the
    handlers are parametric in them.  A validator answers [None] for
    [err == nil]; [server_LimitPagination] answers [None] when its slice
    expression panics. *)
Record Collaborators :=
  { resourceid_ValidateUserSettable : string → option error;
    resourcename_Validate : string → option error;
    fieldbehavior_ValidateRequiredFields_Delete :
      DeleteVirtioBlkRequest → option error;
    fieldbehavior_ValidateRequiredFields_Get :
      GetVirtioBlkRequest → option error;
    fieldmask_Validate : option (list string) → VirtioBlk → option error;
    server_ResourceIDToVolumeName : string → string;
    server_ExtractPagination :
      Z → string → gmap string Z → error + (Z * Z);
    server_LimitPagination :
      list NvdaControllerListResult → Z → Z →
      option (list NvdaControllerListResult * bool) }.

(** [server.ProtoClone]: a deep copy; messages are values here. *)
Definition server_ProtoClone (v : VirtioBlk) : VirtioBlk := v.

Definition with_Name (v : VirtioBlk) (name : string) : VirtioBlk :=
  {| Name := name; PcieId := PcieId v; VolumeId := VolumeId v;
     MaxIoQps := MaxIoQps v |}.


(** ** Go built-ins and standard library *)

(** The conversion [int32(x)] of a wider integer: the low 32 bits, read as a
    two's-complement number. *)
Definition int32 (x : Z) : Z := (x + 2 ^ 31) `mod` 2 ^ 32 - 2 ^ 31.

(** [a + b] on [int] (64 bits on the platforms the bridge is built for). *)
Definition int_add (a b : Z) : Z := (a + b + 2 ^ 63) `mod` 2 ^ 64 - 2 ^ 63.

Definition slash : ascii := "/"%char.

(** [for len(path) > 0 && path[len(path)-1] == '/' { path = path[0 : len(path)-1] }] *)
Fixpoint strip_trailing_slashes (path : string) : string :=
  match path with
  | EmptyString => EmptyString
  | String c rest =>
      match strip_trailing_slashes rest with
      | EmptyString => if decide (c = slash) then EmptyString else String c EmptyString
      | rest' => String c rest'
      end
  end.

Fixpoint has_slash (path : string) : bool :=
  match path with
  | EmptyString => false
  | String c rest => bool_decide (c = slash) || has_slash rest
  end.

(** [if i := strings.LastIndex(path, "/"); i >= 0 { path = path[i+1:] }] *)
Fixpoint after_last_slash (path : string) : string :=
  match path with
  | EmptyString => EmptyString
  | String c rest =>
      if has_slash rest then after_last_slash rest
      else if decide (c = slash) then rest
      else path
  end.

(** [path.Base] of the Go standard library. *)
Definition path_Base (path : string) : string :=
  if decide (path = "") then "."
  else
    let path := strip_trailing_slashes path in
    let path := after_last_slash path in
    if decide (path = "") then "/" else path.

(** [sort.Slice] of the Go standard library.  The library promises a
    permutation of the slice in which no element is [less] than an element
    before it, and does not promise stability.  The model is the insertion
    sort the library runs on slices of at most twelve elements
    ([insertionSortLessFunc]): element [i] moves left as long as it is
    [less] than its left neighbour.  On longer slices the library may order
    elements that compare equal differently; nothing below depends on the
    order among such elements. *)
Section sort_Slice.
Context {A : Type} (less : A → A → bool).

(** [for j := i; j > a && less(j, j-1); j-- { swap(j, j-1) }], with
    [before] holding [data[a:i]] from right to left. *)
Fixpoint sift (x : A) (before : list A) : list A :=
  match before with
  | [] => [x]
  | y :: before' => if less x y then y :: sift x before' else x :: before
  end.

Definition sort_Slice (data : list A) : list A :=
  reverse (foldl (λ sorted x, sift x sorted) [] data).
End sort_Slice.

(** The order of [data[a:i]] read from right to left: no element is [less]
    than the one that follows it. *)
Definition descending {A : Type} (less : A → A → bool) : relation A :=
  λ a b, less a b = false.

(** [sortVirtioBlks]: [virtioBlks[i].Name < virtioBlks[j].Name] compares
    the names byte by byte. *)
Definition sortVirtioBlks (virtioBlks : list VirtioBlk) : list VirtioBlk :=
  sort_Slice (λ a b, String.ltb (Name a) (Name b)) virtioBlks.

Section Handlers.

Context (D : Collaborators).

(** ** CreateVirtioBlk *)
Definition CreateVirtioBlk (env : Env) (in_ : CreateVirtioBlkRequest)
    : M VirtioBlk :=
  let resourceID := resourceid_NewSystemGenerated env in
  resourceID ←
    (if decide (create_VirtioBlkId in_ ≠ "") then
       _ ← check (resourceid_ValidateUserSettable D (create_VirtioBlkId in_));
       (* the log line reads in.VirtioBlk.Name *)
       _ ← deref (create_VirtioBlk in_);
       mret (create_VirtioBlkId in_)
     else mret resourceID);
  blk ← deref (create_VirtioBlk in_);
  let blk := with_Name blk (server_ResourceIDToVolumeName D resourceID) in
  ctrls ← gets VirtioCtrls;
  match ctrls !! Name blk with
  | Some controller => mret controller
  | None =>
      volumeId ← deref (VolumeId blk);
      pcieId ← deref (PcieId blk);
      let params :=
        {| Serial := resourceID;
           Bdev := Value volumeId;
           PfID := PhysicalFunction pcieId;
           NumQueues := MaxIoQps blk;
           BdevType := "spdk";
           EmulationManager := "mlx5_0" |} in
      result ← rpc_Call (controller_virtio_blk_create params)
                        (rpc_create env params);
      if decide (result = "") then
        let msg := "Could not create virtio-blk: " +:+ resourceID in
        throw (status_Errorf InvalidArgument msg [])
      else
        let response := server_ProtoClone blk in
        _ ← modify (set_VirtioCtrls (<[Name blk := response]>));
        mret response
  end.

(** ** DeleteVirtioBlk *)
Definition DeleteVirtioBlk (env : Env) (in_ : DeleteVirtioBlkRequest)
    : M Empty :=
  _ ← check (fieldbehavior_ValidateRequiredFields_Delete D in_);
  _ ← check (resourcename_Validate D (delete_Name in_));
  ctrls ← gets VirtioCtrls;
  match ctrls !! delete_Name in_ with
  | None =>
      if delete_AllowMissing in_ then mret mkEmpty
      else throw (fmt_Errorf "error finding controller %s" [delete_Name in_])
  | Some controller =>
      let params := {| del_Name := delete_Name in_; del_Force := true |} in
      result ← rpc_Call (controller_virtio_blk_delete params)
                        (rpc_delete env params);
      (* [if !result] only writes a log line *)
      _ ← modify (set_VirtioCtrls (delete (Name controller)));
      mret mkEmpty
  end.

(** ** UpdateVirtioBlk *)
Definition UpdateVirtioBlk (in_ : UpdateVirtioBlkRequest) : M VirtioBlk :=
  blk ← deref (update_VirtioBlk in_);
  _ ← check (resourcename_Validate D (Name blk));
  ctrls ← gets VirtioCtrls;
  match ctrls !! Name blk with
  | None =>
      (* AllowMissing only writes a log line *)
      throw (status_Errorf NotFound "unable to find key %s" [Name blk])
  | Some volume =>
      let resourceID := path_Base (Name volume) in
      _ ← check (fieldmask_Validate D (update_UpdateMask in_) blk);
      throw (status_Errorf Unimplemented
               "UpdateVirtioBlk method is not implemented" [])
  end.

(** ** ListVirtioBlks *)

(** The loop [for i := range result] that fills [Blobarray]. *)
Fixpoint list_loop (result : list NvdaControllerListResult)
    (Blobarray : list VirtioBlk) : list VirtioBlk :=
  match result with
  | [] => Blobarray
  | r :: result' =>
      if decide (ctrl_Type r = "virtio_blk") then
        let ctrl :=
          {| Name := server_ResourceIDToVolumeName D (ctrl_Name r);
             PcieId := Some {| PortId := 0;
                               PhysicalFunction := int32 (ctrl_PciIndex r);
                               VirtualFunction := 0 |};
             VolumeId := Some {| Value := "TBD" |};
             MaxIoQps := 0 |} in
        list_loop result' (Blobarray ++ [ctrl])
      else list_loop result' Blobarray
  end.

Definition ListVirtioBlks (env : Env) (in_ : ListVirtioBlksRequest)
    : M ListVirtioBlksResponse :=
  pagination ← gets Pagination;
  '(size, offset) ←
    match server_ExtractPagination D (list_PageSize in_) (list_PageToken in_)
            pagination with
    | inl perr => throw perr
    | inr r => mret r
    end;
  result ← rpc_Call controller_list (rpc_list env);
  '(result, hasMoreElements) ←
    match server_LimitPagination D result offset size with
    | Some r => mret r
    | None => panic
    end;
  token ←
    (if hasMoreElements : bool then
       let token := uuid_New_String env in
       _ ← modify (set_Pagination (<[token := int_add offset size]>));
       mret token
     else mret "");
  let Blobarray := list_loop result [] in
  let Blobarray := sortVirtioBlks Blobarray in
  (* the response literal sets VirtioBlks only *)
  mret {| VirtioBlks := Blobarray; NextPageToken := "" |}.

(** ** GetVirtioBlk *)

(** The loop [for i := range result] of the handler: the first entry with
    the wanted name and the virtio-blk type ends it. *)
Fixpoint get_loop (resourceID : string)
    (result : list NvdaControllerListResult) : option VirtioBlk :=
  match result with
  | [] => None
  | r :: result' =>
      if decide (ctrl_Name r = resourceID ∧ ctrl_Type r = "virtio_blk") then
        Some {| Name := server_ResourceIDToVolumeName D (ctrl_Name r);
                PcieId := Some {| PortId := 0;
                                  PhysicalFunction := int32 (ctrl_PciIndex r);
                                  VirtualFunction := 0 |};
                VolumeId := Some {| Value := "TBD" |};
                MaxIoQps := 0 |}
      else get_loop resourceID result'
  end.

Definition GetVirtioBlk (env : Env) (in_ : GetVirtioBlkRequest)
    : M VirtioBlk :=
  _ ← check (fieldbehavior_ValidateRequiredFields_Get D in_);
  _ ← check (resourcename_Validate D (get_Name in_));
  ctrls ← gets VirtioCtrls;
  match ctrls !! get_Name in_ with
  | None =>
      let msg := "Could not find Controller: " +:+ get_Name in_ in
      throw (status_Errorf InvalidArgument msg [])
  | Some _ =>
      result ← rpc_Call controller_list (rpc_list env);
      let resourceID := path_Base (get_Name in_) in
      match get_loop resourceID result with
      | Some ctrl => mret ctrl
      | None =>
          let msg := "Could not find Controller: " +:+ get_Name in_ in
          throw (status_Errorf InvalidArgument msg [])
      end
  end.

(** ** VirtioBlkStats *)

(** The inner loop [for _, r := range c.Bdevs]. *)
Fixpoint stats_bdevs (id : ObjectKey) (bdevs : list NvdaBdevStats)
    : option VirtioBlkStatsResponse :=
  match bdevs with
  | [] => None
  | r :: bdevs' =>
      if decide (BdevName r = Value id) then
        Some {| stats_Id := Some id;
                stats_Stats := Some {| ReadOpsCount := int32 (ReadIos r);
                                       WriteOpsCount := int32 (WriteIos r) |} |}
      else stats_bdevs id bdevs'
  end.

(** The outer loop [for _, c := range result.Controllers]. *)
Fixpoint stats_controllers (id : ObjectKey)
    (controllers : list NvdaControllerStats) : option VirtioBlkStatsResponse :=
  match controllers with
  | [] => None
  | c :: controllers' =>
      match stats_bdevs id (Bdevs c) with
      | Some response => Some response
      | None => stats_controllers id controllers'
      end
  end.

Definition VirtioBlkStats (env : Env) (in_ : VirtioBlkStatsRequest)
    : M VirtioBlkStatsResponse :=
  id ← deref (stats_ControllerId in_);
  _ ← check (resourcename_Validate D (Value id));
  result ← rpc_Call controller_virtio_blk_get_iostat (rpc_iostat env);
  match stats_controllers id (Controllers result) with
  | Some response => mret response
  | None =>
      let msg := "Could not find Controller: " +:+ Value id in
      throw (status_Errorf InvalidArgument msg [])
  end.

End Handlers.

(** ** A concrete set of collaborators

    The theorems below hold for every [Collaborators]; to run the handlers
    on concrete requests one instance is fixed here. *)

Definition is_id_char (c : ascii) : bool :=
  let n := N_of_ascii c in
  ((97 <=? n) && (n <=? 122) || (48 <=? n) && (n <=? 57) || (n =? 45))%N.

Fixpoint all_id_chars (s : string) : bool :=
  match s with
  | EmptyString => true
  | String c rest => is_id_char c && all_id_chars rest
  end.

(** the shape 8-4-4-4-12 of a printed UUID *)
Definition uuid_shaped (s : string) : bool :=
  bool_decide (String.length s = 36%nat)
  && bool_decide (String.get 8 s = Some "-"%char)
  && bool_decide (String.get 13 s = Some "-"%char)
  && bool_decide (String.get 18 s = Some "-"%char)
  && bool_decide (String.get 23 s = Some "-"%char).

(** Modelled from the spec: [resourceid.ValidateUserSettable] is code of
    go.einride.tech/aip.  Section 3: a caller-supplied identifier is
    non-empty, over a restricted character set, and does not collide with
    the system-generated pattern. *)
Definition ValidateUserSettable_model (id : string) : option error :=
  if bool_decide (id ≠ "") && all_id_chars id && negb (uuid_shaped id)
  then None
  else Some (foreign_error "resourceid" "user-settable id is not valid").

(** Modelled from the spec: [resourcename.Validate] is code of
    go.einride.tech/aip, and the spec says no more than that the syntax of a
    name is checked; this instance turns down the empty name only. *)
Definition resourcename_Validate_model (name : string) : option error :=
  if decide (name = "") then Some (foreign_error "resourcename" "empty")
  else None.

(** Modelled from the spec: [fieldbehavior.ValidateRequiredFields] is code
    of go.einride.tech/aip; the required field of both requests is the
    name. *)
Definition ValidateRequiredFields_model (name : string) : option error :=
  if decide (name = "") then
    Some (foreign_error "fieldbehavior" "missing required field: name")
  else None.

(** Modelled from the spec: [fieldmask.Validate] is code of
    go.einride.tech/aip; a mask is valid against the payload when each path
    is the wildcard or names a field of the message, and a nil mask is
    valid. *)
Definition fieldmask_Validate_model (mask : option (list string))
    (_ : VirtioBlk) : option error :=
  match mask with
  | None => None
  | Some paths =>
      if forallb (λ p, bool_decide
                    (p ∈ ["*"; "name"; "pcie_id"; "volume_id"; "max_io_qps"]))
           paths
      then None
      else Some (foreign_error "fieldmask" "invalid field path")
  end.

(** Modelled from the spec: [server.ResourceIDToVolumeName] is code of
    opi-spdk-bridge; section 3 calls it a deterministic naming function that
    embeds the identifier in the canonical name. *)
Definition ResourceIDToVolumeName_model (resourceID : string) : string :=
  "//storage.opiproject.org/volumes/" +:+ resourceID.

Definition maxPageSize : Z := 250.

(** Modelled from the spec: [server.ExtractPagination] is code of
    opi-spdk-bridge.  Section 4.4, step 1: a supplied token must
    resolve in the cursor store, an unresolvable one is a client error;
    without a token the offset is zero; the size defaults to the configured
    maximum when unspecified or out of bounds.  A negative size is taken as
    an invalid pagination parameter. *)
Definition ExtractPagination_model (pageSize : Z) (pageToken : string)
    (pagination : gmap string Z) : error + (Z * Z) :=
  if decide (pageSize < 0) then
    inl (status_Errorf InvalidArgument "negative PageSize is not allowed" [])
  else
    let size :=
      if decide (pageSize = 0 ∨ maxPageSize < pageSize) then maxPageSize
      else pageSize in
    if decide (pageToken = "") then inr (size, 0)
    else
      match pagination !! pageToken with
      | Some offset => inr (size, offset)
      | None =>
          inl (status_Errorf NotFound "unable to find pagination token %s"
                 [pageToken])
      end.

(** The entries at positions [offset] to [offset + size - 1]. *)
Definition window {A} (l : list A) (offset size : Z) : list A :=
  take (Z.to_nat size) (drop (Z.to_nat offset) l).

(** Modelled from the spec: [server.LimitPagination] is code of
    opi-spdk-bridge.  Section 4.4, step 4: the offset/size
    window, and whether more entries remain beyond it.  An offset outside
    the listing is an out-of-range slice expression. *)
Definition LimitPagination_model {A} (result : list A) (offset size : Z)
    : option (list A * bool) :=
  if decide (0 ≤ offset ≤ Z.of_nat (length result) ∧ 0 ≤ size) then
    Some (window result offset size,
          bool_decide (offset + size < Z.of_nat (length result)))
  else None.

Definition bridge : Collaborators :=
  {| resourceid_ValidateUserSettable := ValidateUserSettable_model;
     resourcename_Validate := resourcename_Validate_model;
     fieldbehavior_ValidateRequiredFields_Delete :=
       λ in_, ValidateRequiredFields_model (delete_Name in_);
     fieldbehavior_ValidateRequiredFields_Get :=
       λ in_, ValidateRequiredFields_model (get_Name in_);
     fieldmask_Validate := fieldmask_Validate_model;
     server_ResourceIDToVolumeName := ResourceIDToVolumeName_model;
     server_ExtractPagination := ExtractPagination_model;
     server_LimitPagination := LimitPagination_model |}.

(** ** Runs of the server *)

Inductive Request :=
  | Create (in_ : CreateVirtioBlkRequest)
  | Delete (in_ : DeleteVirtioBlkRequest)
  | Update (in_ : UpdateVirtioBlkRequest)
  | List (in_ : ListVirtioBlksRequest)
  | Get (in_ : GetVirtioBlkRequest)
  | Stats (in_ : VirtioBlkStatsRequest).

(** The state one request leaves behind, whatever it answers. *)
Definition serve (D : Collaborators) (env : Env) (req : Request) (w : World)
    : World :=
  match req with
  | Create in_ => (CreateVirtioBlk D env in_ w).2
  | Delete in_ => (DeleteVirtioBlk D env in_ w).2
  | Update in_ => (UpdateVirtioBlk D in_ w).2
  | List in_ => (ListVirtioBlks D env in_ w).2
  | Get in_ => (GetVirtioBlk D env in_ w).2
  | Stats in_ => (VirtioBlkStats D env in_ w).2
  end.

(** Modelled from the spec: the constructor of [Server] is declared next
    to the type, not in virtio.go; section 6 has the Registry and the Cursor
    Store live for the lifetime of the process only, so a server starts with
    both empty. *)
Definition NewServer : Server := {| VirtioCtrls := ∅; Pagination := ∅ |}.

(** The states of a server that has answered a finite sequence of requests,
    each against an arbitrary backend. *)
Inductive reachable (D : Collaborators) : Server → Prop :=
  | reachable_new : reachable D NewServer
  | reachable_serve s cs env req :
      reachable D s →
      reachable D (server (serve D env req {| server := s; calls := cs |})).

(** Every entry of the registry is stored under its own name. *)
Definition registry_wf (s : Server) : Prop :=
  map_Forall (λ name (v : VirtioBlk), Name v = name) (VirtioCtrls s).

(** ** Vocabulary of the statements *)

(** The identifier [CreateVirtioBlk] settles on: the caller's if one is
    supplied, the freshly generated one otherwise. *)
Definition create_resourceID (env : Env) (in_ : CreateVirtioBlkRequest)
    : string :=
  if decide (create_VirtioBlkId in_ ≠ "") then create_VirtioBlkId in_
  else resourceid_NewSystemGenerated env.

(** The canonical name derived from it. *)
Definition create_name (D : Collaborators) (env : Env)
    (in_ : CreateVirtioBlkRequest) : string :=
  server_ResourceIDToVolumeName D (create_resourceID env in_).

(** A supplied identifier passes the syntactic check. *)
Definition create_id_ok (D : Collaborators) (in_ : CreateVirtioBlkRequest)
    : Prop :=
  create_VirtioBlkId in_ = "" ∨
  resourceid_ValidateUserSettable D (create_VirtioBlkId in_) = None.

(** The parameters [CreateVirtioBlk] sends to the backend. *)
Definition create_params (env : Env) (in_ : CreateVirtioBlkRequest)
    (blk : VirtioBlk) (volumeId : ObjectKey) (pcieId : PciEndpoint)
    : NvdaControllerVirtioBlkCreateParams :=
  {| Serial := create_resourceID env in_;
     Bdev := Value volumeId;
     PfID := PhysicalFunction pcieId;
     NumQueues := MaxIoQps blk;
     BdevType := "spdk";
     EmulationManager := "mlx5_0" |}.

(** The parameters [DeleteVirtioBlk] sends to the backend. *)
Definition delete_params (in_ : DeleteVirtioBlkRequest)
    : NvdaControllerVirtioBlkDeleteParams :=
  {| del_Name := delete_Name in_; del_Force := true |}.

(** [w] with one more call in its log. *)
Definition called (c : RpcCall) (w : World) : World :=
  {| server := server w; calls := calls w ++ [c] |}.

(** [w] with its registry changed by [f]. *)
Definition with_registry (f : gmap string VirtioBlk → gmap string VirtioBlk)
    (w : World) : World :=
  {| server := set_VirtioCtrls f (server w); calls := calls w |}.

(** The message [ListVirtioBlks] and [GetVirtioBlk] build from an entry of
    the backend listing. *)
Definition listed (D : Collaborators) (r : NvdaControllerListResult)
    : VirtioBlk :=
  {| Name := server_ResourceIDToVolumeName D (ctrl_Name r);
     PcieId := Some {| PortId := 0;
                       PhysicalFunction := int32 (ctrl_PciIndex r);
                       VirtualFunction := 0 |};
     VolumeId := Some {| Value := "TBD" |};
     MaxIoQps := 0 |}.

(** The type tag of a virtio-blk controller in the backend listing. *)
Definition is_virtio_blk (r : NvdaControllerListResult) : Prop :=
  ctrl_Type r = "virtio_blk".

#[global] Instance is_virtio_blk_dec r : Decision (is_virtio_blk r) :=
  decide (ctrl_Type r = "virtio_blk").

(** The entry [GetVirtioBlk] looks for in the backend listing: its name is
    the trailing path segment of the requested name and it is a virtio-blk
    controller. *)
Definition get_match (in_ : GetVirtioBlkRequest)
    (r : NvdaControllerListResult) : Prop :=
  ctrl_Name r = path_Base (get_Name in_) ∧ is_virtio_blk r.

(** The device entries of the statistics, controller by controller. *)
Definition devices (result : NvdaControllerNvmeStatsResult)
    : list NvdaBdevStats :=
  flat_map Bdevs (Controllers result).

(** The response [VirtioBlkStats] builds from a device entry. *)
Definition stats_of (id : ObjectKey) (r : NvdaBdevStats)
    : VirtioBlkStatsResponse :=
  {| stats_Id := Some id;
     stats_Stats := Some {| ReadOpsCount := int32 (ReadIos r);
                            WriteOpsCount := int32 (WriteIos r) |} |}.

(** The error of a lookup that found nothing. *)
Definition could_not_find (name : string) : error :=
  status_Errorf InvalidArgument ("Could not find Controller: " +:+ name) [].

(** [a] comes no later than [b] in the ascending order of names. *)
Definition name_le (a b : VirtioBlk) : Prop :=
  String.leb (Name a) (Name b) = true.

(** The placeholder volume reference. *)
Definition TBD : option ObjectKey := Some {| Value := "TBD" |}.

(** The range of a signed 32-bit integer. *)
Definition in_int32 (x : Z) : Prop := - 2 ^ 31 ≤ x < 2 ^ 31.

(** The response that carries the counts of a device entry as they are. *)
Definition counts_of (id : ObjectKey) (r : NvdaBdevStats)
    : VirtioBlkStatsResponse :=
  {| stats_Id := Some id;
     stats_Stats := Some {| ReadOpsCount := ReadIos r;
                            WriteOpsCount := WriteIos r |} |}.

(** [w] with the cursor [token] bound to [offset]. *)
Definition with_cursor (token : string) (offset : Z) (w : World) : World :=
  {| server := set_Pagination (<[token := offset]>) (server w);
     calls := calls w |}.

(** The page [ListVirtioBlks] answers with when the pagination helper cuts
    the backend listing down to [page]. *)
Definition page_of (D : Collaborators) (page : list NvdaControllerListResult)
    : list VirtioBlk :=
  sortVirtioBlks (listed D <$> filter is_virtio_blk page).

(** The page in the words of the spec's section 4.4, steps 3 to 5: filter
    the listing to the virtio-blk entries, then apply the offset/size
    window, then sort. *)
Definition claimed_page (D : Collaborators)
    (result : list NvdaControllerListResult) (offset size : Z)
    : list VirtioBlk :=
  sortVirtioBlks (listed D <$> window (filter is_virtio_blk result) offset size).

(** ** Sample data *)

Definition sample_ctrl42 : NvdaControllerListResult :=
  {| ctrl_Name := "virtio-blk-42"; ctrl_Type := "virtio_blk";
     ctrl_PciIndex := 42 |}.

Definition sample_ctrl7 : NvdaControllerListResult :=
  {| ctrl_Name := "virtio-blk-7"; ctrl_Type := "virtio_blk";
     ctrl_PciIndex := 7 |}.

(** A heterogeneous backend listing: one NVMe controller, two virtio-blk
    controllers. *)
Definition sample_listing : list NvdaControllerListResult :=
  [ {| ctrl_Name := "nvme0"; ctrl_Type := "nvme"; ctrl_PciIndex := 0 |};
    sample_ctrl42; sample_ctrl7 ].

Definition sample_env : Env :=
  {| rpc_create := λ _, inr "VblkEmu0pf0";
     rpc_delete := λ _, inr false;
     rpc_list := inr sample_listing;
     rpc_iostat :=
       inr {| Controllers :=
                [ {| stat_Name := "VblkEmu0pf0";
                     Bdevs := [ {| BdevName := "Malloc41"; ReadIos := 5;
                                   WriteIos := 6 |};
                                {| BdevName := "Malloc42"; ReadIos := 10;
                                   WriteIos := 20 |} ] |} ] |};
     resourceid_NewSystemGenerated := "123e4567-e89b-12d3-a456-426614174000";
     uuid_New_String := "00000000-0000-4000-8000-000000000001" |}.

(** The request of the repository's test "valid virtio-blk creation". *)
Definition sample_blk : VirtioBlk :=
  {| Name := "";
     PcieId := Some {| PortId := 0; PhysicalFunction := 42;
                       VirtualFunction := 0 |};
     VolumeId := Some {| Value := "Malloc42" |};
     MaxIoQps := 1 |}.

Definition sample_create : CreateVirtioBlkRequest :=
  {| create_VirtioBlk := Some sample_blk;
     create_VirtioBlkId := "virtio-blk-42" |}.

Definition sample_name : string :=
  "//storage.opiproject.org/volumes/virtio-blk-42".

Definition new_world : World := {| server := NewServer; calls := [] |}.

(** The world after the sample request was served by a new server. *)
Definition sample_world : World :=
  serve bridge sample_env (Create sample_create) new_world.

Definition sample_delete : DeleteVirtioBlkRequest :=
  {| delete_Name := sample_name; delete_AllowMissing := false |}.

Definition sample_delete_missing : DeleteVirtioBlkRequest :=
  {| delete_Name := sample_name; delete_AllowMissing := true |}.

Definition sample_update : UpdateVirtioBlkRequest :=
  {| update_VirtioBlk := Some (with_Name sample_blk sample_name);
     update_UpdateMask := Some ["max_io_qps"];
     update_AllowMissing := true |}.

Definition sample_get : GetVirtioBlkRequest := {| get_Name := sample_name |}.

Definition sample_list : ListVirtioBlksRequest :=
  {| list_PageSize := 1; list_PageToken := "" |}.

Definition sample_stats : VirtioBlkStatsRequest :=
  {| stats_ControllerId := Some {| Value := "Malloc42" |} |}.

(** A backend whose device has served 2^32 + 10 reads. *)
Definition busy_bdev : NvdaBdevStats :=
  {| BdevName := "Malloc42"; ReadIos := 4294967306; WriteIos := 20 |}.

Definition busy_env : Env :=
  {| rpc_create := rpc_create sample_env;
     rpc_delete := rpc_delete sample_env;
     rpc_list := rpc_list sample_env;
     rpc_iostat :=
       inr {| Controllers :=
                [ {| stat_Name := "VblkEmu0pf0"; Bdevs := [busy_bdev] |} ] |};
     resourceid_NewSystemGenerated := resourceid_NewSystemGenerated sample_env;
     uuid_New_String := uuid_New_String sample_env |}.

(** A backend that lists three virtio-blk controllers and nothing else. *)
Definition sample_ctrl9 : NvdaControllerListResult :=
  {| ctrl_Name := "virtio-blk-9"; ctrl_Type := "virtio_blk";
     ctrl_PciIndex := 9 |}.

Definition vblk_listing : list NvdaControllerListResult :=
  [ sample_ctrl42; sample_ctrl7; sample_ctrl9 ].

Definition vblk_env : Env :=
  {| rpc_create := rpc_create sample_env;
     rpc_delete := rpc_delete sample_env;
     rpc_list := inr vblk_listing;
     rpc_iostat := rpc_iostat sample_env;
     resourceid_NewSystemGenerated := resourceid_NewSystemGenerated sample_env;
     uuid_New_String := uuid_New_String sample_env |}.

Definition sample_list2 : ListVirtioBlksRequest :=
  {| list_PageSize := 2; list_PageToken := "" |}.

(** The request of the repository's tests: no identifier is supplied. *)
Definition test_create : CreateVirtioBlkRequest :=
  {| create_VirtioBlk := Some sample_blk; create_VirtioBlkId := "" |}.

(** The backend of the test "spdk virtio-blk creation returned false
    response with no error". *)
Definition empty_result_env : Env :=
  {| rpc_create := λ _, inr "";
     rpc_delete := rpc_delete sample_env;
     rpc_list := rpc_list sample_env;
     rpc_iostat := rpc_iostat sample_env;
     resourceid_NewSystemGenerated := resourceid_NewSystemGenerated sample_env;
     uuid_New_String := uuid_New_String sample_env |}.

(** The backend of the test "spdk virtio-blk creation error". *)
Definition failing_env : Env :=
  {| rpc_create := λ _, inl (foreign_error "spdk" "some internal error");
     rpc_delete := rpc_delete sample_env;
     rpc_list := rpc_list sample_env;
     rpc_iostat := rpc_iostat sample_env;
     resourceid_NewSystemGenerated := resourceid_NewSystemGenerated sample_env;
     uuid_New_String := uuid_New_String sample_env |}.

(** ** Vocabulary of the further properties *)

(** What holds of an entry of the registry in every state a server reaches:
    it is stored under the name it carries, the name is the canonical name
    of some identifier, and the volume reference and the PCIe endpoint are
    set. *)
Definition registry_entry_ok (D : Collaborators) (name : string)
    (v : VirtioBlk) : Prop :=
  Name v = name
  ∧ (∃ resourceID, name = server_ResourceIDToVolumeName D resourceID)
  ∧ is_Some (VolumeId v)
  ∧ is_Some (PcieId v).

(** The backend calls a request may issue. *)
Definition own_calls (req : Request) (l : list RpcCall) : Prop :=
  match req with
  | Create _ =>
      l = [] ∨
      ∃ p, l = [controller_virtio_blk_create p]
           ∧ BdevType p = "spdk" ∧ EmulationManager p = "mlx5_0"
  | Delete in_ => l = [] ∨ l = [controller_virtio_blk_delete (delete_params in_)]
  | Update _ => l = []
  | List _ | Get _ => l = [] ∨ l = [controller_list]
  | Stats _ => l = [] ∨ l = [controller_virtio_blk_get_iostat]
  end.

(** The requests whose handlers write to the registry, and to the cursor
    store. *)
Definition writes_registry (req : Request) : bool :=
  match req with
  | Create _ | Delete _ => true
  | _ => false
  end.

Definition writes_cursors (req : Request) : bool :=
  match req with
  | List _ => true
  | _ => false
  end.

(** A payload without a volume reference. *)
Definition bare_blk : VirtioBlk :=
  {| Name := ""; PcieId := PcieId sample_blk; VolumeId := None;
     MaxIoQps := 1 |}.

Definition bare_create : CreateVirtioBlkRequest :=
  {| create_VirtioBlk := Some bare_blk;
     create_VirtioBlkId := "virtio-blk-42" |}.

(** A backend whose delete call fails in transport. *)
Definition delete_failing_env : Env :=
  {| rpc_create := rpc_create sample_env;
     rpc_delete := λ _, inl (foreign_error "spdk" "some internal error");
     rpc_list := rpc_list sample_env;
     rpc_iostat := rpc_iostat sample_env;
     resourceid_NewSystemGenerated := resourceid_NewSystemGenerated sample_env;
     uuid_New_String := uuid_New_String sample_env |}.

(** A backend whose listing call fails in transport. *)
Definition list_failing_env : Env :=
  {| rpc_create := rpc_create sample_env;
     rpc_delete := rpc_delete sample_env;
     rpc_list := inl (foreign_error "spdk" "some internal error");
     rpc_iostat := rpc_iostat sample_env;
     resourceid_NewSystemGenerated := resourceid_NewSystemGenerated sample_env;
     uuid_New_String := uuid_New_String sample_env |}.

(** ** Proof automation *)

(** Unfolds the operations of the handler monad. *)
Ltac unfold_M :=
  unfold check in *;
  unfold deref in *;
  unfold mbind, M_bind, mret, M_ret, throw, panic, gets, modify, rpc_Call
    in *.

(** Splits on every test and match of the goal and its hypotheses. *)
Ltac split_cases :=
  repeat (case_decide || case_match; simplify_eq/=).

(** * Properties of the handlers *)

(** ** The definitions on concrete data *)

Example path_Base_name : path_Base sample_name = "virtio-blk-42".
Proof. reflexivity. Qed.

Example path_Base_edge_cases :
  path_Base "" = "." ∧ path_Base "///" = "/" ∧ path_Base "a/b/" = "b"
  ∧ path_Base "abc" = "abc" ∧ path_Base "a//b//" = "b".
Proof. repeat split. Qed.

Example int32_wraps :
  int32 42 = 42 ∧ int32 (-1) = -1 ∧ int32 (2 ^ 31) = - 2 ^ 31
  ∧ int32 (2 ^ 32 + 10) = 10.
Proof. repeat split. Qed.

Example sort_Slice_numbers :
  sort_Slice Z.ltb [3; 1; 2; 5; 4; 1] = [1; 1; 2; 3; 4; 5].
Proof. reflexivity. Qed.

(** The three cases of [TestFrontEnd_CreateVirtioBlk]. *)
Example test_valid_creation :
  (CreateVirtioBlk bridge sample_env test_create new_world).1 =
    Ok (with_Name sample_blk
          "//storage.opiproject.org/volumes/123e4567-e89b-12d3-a456-426614174000").
Proof. vm_compute. reflexivity. Qed.

Example test_creation_error :
  CreateVirtioBlk bridge failing_env test_create new_world =
    (Err (foreign_error "spdk" "some internal error"),
     called (controller_virtio_blk_create
               {| Serial := "123e4567-e89b-12d3-a456-426614174000";
                  Bdev := "Malloc42"; PfID := 42; NumQueues := 1;
                  BdevType := "spdk"; EmulationManager := "mlx5_0" |})
       new_world).
Proof. vm_compute. reflexivity. Qed.

Example test_creation_empty_result :
  (CreateVirtioBlk bridge empty_result_env test_create new_world).1 =
    Err (status_Errorf InvalidArgument
           "Could not create virtio-blk: 123e4567-e89b-12d3-a456-426614174000"
           []).
Proof. vm_compute. reflexivity. Qed.

(** A Create request without a payload panics. *)
Example create_nil_payload :
  (CreateVirtioBlk bridge sample_env
     {| create_VirtioBlk := None; create_VirtioBlkId := "" |} new_world).1
  = Panic.
Proof. reflexivity. Qed.

(** Two pages over three virtio-blk controllers: the first call binds the
    token to offset 2, the call that presents the token returns the third
    controller and binds nothing. *)
Example two_pages :
  let first := ListVirtioBlks bridge vblk_env sample_list2 new_world in
  let second :=
    ListVirtioBlks bridge vblk_env
      {| list_PageSize := 2; list_PageToken := uuid_New_String vblk_env |}
      first.2 in
  first.1 =
    Ok {| VirtioBlks := [listed bridge sample_ctrl42;
                         listed bridge sample_ctrl7];
          NextPageToken := "" |}
  ∧ Pagination (server first.2) !! uuid_New_String vblk_env = Some 2
  ∧ second.1 =
      Ok {| VirtioBlks := [listed bridge sample_ctrl9];
            NextPageToken := "" |}
  ∧ Pagination (server second.2) = Pagination (server first.2).
Proof. vm_compute. repeat split. Qed.

Section Invariant.

Context (D : Collaborators).

Lemma create_registry_wf env in_ w :
  registry_wf (server w) → registry_wf (server (CreateVirtioBlk D env in_ w).2).
Proof.
  unfold CreateVirtioBlk, registry_wf. intros Hwf. unfold_M. cbn.
  split_cases; try done; by apply map_Forall_insert_2.
Qed.

Lemma delete_registry_wf env in_ w :
  registry_wf (server w) → registry_wf (server (DeleteVirtioBlk D env in_ w).2).
Proof.
  unfold DeleteVirtioBlk, registry_wf. intros Hwf. unfold_M. cbn.
  split_cases; try done; by apply map_Forall_delete.
Qed.

Lemma update_world in_ w : (UpdateVirtioBlk D in_ w).2 = w.
Proof. unfold UpdateVirtioBlk. unfold_M. cbn. by split_cases. Qed.

Lemma list_VirtioCtrls env in_ w :
  VirtioCtrls (server (ListVirtioBlks D env in_ w).2) = VirtioCtrls (server w).
Proof. unfold ListVirtioBlks. unfold_M. cbn. by split_cases. Qed.

Lemma get_server env in_ w : server (GetVirtioBlk D env in_ w).2 = server w.
Proof. unfold GetVirtioBlk. unfold_M. cbn. by split_cases. Qed.

Lemma stats_server env in_ w : server (VirtioBlkStats D env in_ w).2 = server w.
Proof. unfold VirtioBlkStats. unfold_M. cbn. by split_cases. Qed.

Lemma serve_registry_wf env req w :
  registry_wf (server w) → registry_wf (server (serve D env req w)).
Proof.
  destruct req as [in_|in_|in_|in_|in_|in_]; cbn; intros Hwf.
  - by apply create_registry_wf.
  - by apply delete_registry_wf.
  - by rewrite update_world.
  - unfold registry_wf. by rewrite list_VirtioCtrls.
  - by rewrite get_server.
  - by rewrite stats_server.
Qed.

(** In every state a server can reach, each registry entry is stored under
    the name it carries. *)
Lemma reachable_registry_wf s : reachable D s → registry_wf s.
Proof.
  induction 1 as [|s cs env req _ IH].
  - apply map_Forall_empty.
  - by apply serve_registry_wf.
Qed.

End Invariant.

Section Create.

Context (D : Collaborators).

Lemma create_hit env in_ blk controller w :
  create_VirtioBlk in_ = Some blk →
  create_id_ok D in_ →
  VirtioCtrls (server w) !! create_name D env in_ = Some controller →
  CreateVirtioBlk D env in_ w = (Ok controller, w).
Proof.
  intros Hblk Hid Hreg.
  unfold CreateVirtioBlk, create_name, create_resourceID in *.
  destruct Hid as [Hid|Hid]; unfold_M; cbn in *; split_cases; try done;
    rewrite ?Hid, Hblk; cbn; rewrite ?Hblk; cbn; by rewrite Hreg.
Qed.

(** A successful Create leaves the returned message registered under the
    derived name. *)
Lemma create_ok_registered env in_ w r w' :
  CreateVirtioBlk D env in_ w = (Ok r, w') →
  VirtioCtrls (server w') !! create_name D env in_ = Some r.
Proof.
  unfold CreateVirtioBlk, create_name, create_resourceID.
  intros H. unfold_M. cbn in H.
  destruct (create_VirtioBlk in_) as [blk|] eqn:Hblk; [|by split_cases].
  split_cases; try done; by rewrite lookup_insert_eq.
Qed.

(** A successful Create was given a payload and an acceptable identifier. *)
Lemma create_ok_valid env in_ w r w' :
  CreateVirtioBlk D env in_ w = (Ok r, w') →
  is_Some (create_VirtioBlk in_) ∧ create_id_ok D in_.
Proof.
  unfold CreateVirtioBlk, create_id_ok.
  intros H. unfold_M. cbn in H.
  destruct (create_VirtioBlk in_) as [blk|] eqn:Hblk; [|by split_cases].
  split; [by eexists|].
  destruct (decide (create_VirtioBlkId in_ = "")) as [|Hne]; [by left|right].
  destruct (resourceid_ValidateUserSettable D (create_VirtioBlkId in_))
    eqn:Hv; [|done].
  by split_cases.
Qed.

(** C1.  Idempotent create.  In every state of the registry, a Create
    request that carries a payload and an acceptable identifier, and whose
    derived canonical name is registered, returns the registered message and
    leaves the registry and the log of backend calls as they were.  Hence a
    Create that follows a successful Create of the same derived name returns
    the same message as the first and issues no backend call. *)
Theorem create_idempotent :
  (∀ env in_ blk controller w,
     create_VirtioBlk in_ = Some blk →
     create_id_ok D in_ →
     VirtioCtrls (server w) !! create_name D env in_ = Some controller →
     CreateVirtioBlk D env in_ w = (Ok controller, w))
  ∧
  (∀ env1 in1 env2 in2 blk2 w r1 w1,
     CreateVirtioBlk D env1 in1 w = (Ok r1, w1) →
     create_VirtioBlk in2 = Some blk2 →
     create_id_ok D in2 →
     create_name D env2 in2 = create_name D env1 in1 →
     CreateVirtioBlk D env2 in2 w1 = (Ok r1, w1)).
Proof.
  split.
  - intros; by eapply create_hit.
  - intros env1 in1 env2 in2 blk2 w r1 w1 H1 Hblk Hid Hname.
    eapply create_hit; [done..|].
    rewrite Hname. by eapply create_ok_registered.
Qed.

End Create.

Lemma create_idempotent_witness :
  CreateVirtioBlk bridge sample_env sample_create sample_world
  = (Ok (with_Name sample_blk sample_name), sample_world)
  ∧
  CreateVirtioBlk bridge vblk_env sample_create sample_world
  = (Ok (with_Name sample_blk sample_name), sample_world).
Proof.
  split.
  - apply (proj1 (create_idempotent bridge) sample_env sample_create
             sample_blk).
    + reflexivity.
    + right. reflexivity.
    + vm_compute. reflexivity.
  - apply (proj2 (create_idempotent bridge) sample_env sample_create vblk_env
             sample_create sample_blk new_world).
    + vm_compute. reflexivity.
    + reflexivity.
    + right. reflexivity.
    + reflexivity.
Defined.

Section Create_backend.

Context (D : Collaborators).

(** C4.  Create on a backend answer.  For a Create request with a payload
    that names a volume and a PCIe endpoint, an acceptable identifier and a
    derived name that is not registered: when the backend call returns
    without a transport error, an empty result makes Create fail with an
    InvalidArgument status whose message names the identifier, and the
    registry stays as it was; a non-empty result makes Create store the copy
    of the payload, under and with the canonical name, and return it.  One
    backend call is issued in both cases. *)
Theorem create_backend_result env in_ blk volumeId pcieId result w :
  create_VirtioBlk in_ = Some blk →
  VolumeId blk = Some volumeId →
  PcieId blk = Some pcieId →
  create_id_ok D in_ →
  VirtioCtrls (server w) !! create_name D env in_ = None →
  rpc_create env (create_params env in_ blk volumeId pcieId) = inr result →
  let call :=
    controller_virtio_blk_create (create_params env in_ blk volumeId pcieId) in
  let stored := with_Name blk (create_name D env in_) in
  (result = "" →
     CreateVirtioBlk D env in_ w =
       (Err (status_Errorf InvalidArgument
               ("Could not create virtio-blk: " +:+ create_resourceID env in_)
               []),
        called call w))
  ∧
  (result ≠ "" →
     CreateVirtioBlk D env in_ w =
       (Ok stored,
        with_registry (<[create_name D env in_ := stored]>) (called call w))).
Proof.
  intros Hblk Hvol Hpcie Hid Hreg Hrpc call stored. subst call stored.
  unfold CreateVirtioBlk, create_name, create_params, create_resourceID in *.
  split; intros Hres;
    (destruct Hid as [Hid|Hid]; unfold_M; cbn in *; split_cases; try done;
     rewrite ?Hid, Hblk; cbn; rewrite ?Hblk; cbn; rewrite Hreg; cbn;
     rewrite Hvol, Hpcie, Hrpc; cbn; by split_cases).
Qed.

End Create_backend.

Lemma create_backend_result_witness :
  CreateVirtioBlk bridge sample_env sample_create new_world
  = (Ok (with_Name sample_blk sample_name), sample_world)
  ∧
  (CreateVirtioBlk bridge empty_result_env sample_create new_world).1
  = Err (status_Errorf InvalidArgument
           "Could not create virtio-blk: virtio-blk-42" []).
Proof.
  split.
  - refine (proj2 (create_backend_result bridge sample_env sample_create
                     sample_blk {| Value := "Malloc42" |}
                     {| PortId := 0; PhysicalFunction := 42;
                        VirtualFunction := 0 |}
                     "VblkEmu0pf0" new_world _ _ _ _ _ _) _);
      try reflexivity.
    + right. reflexivity.
    + discriminate.
  - rewrite (proj1 (create_backend_result bridge empty_result_env
                      sample_create sample_blk {| Value := "Malloc42" |}
                      {| PortId := 0; PhysicalFunction := 42;
                         VirtualFunction := 0 |}
                      "" new_world eq_refl eq_refl eq_refl
                      (or_intror eq_refl) eq_refl eq_refl) eq_refl).
    reflexivity.
Defined.

Section Delete.

Context (D : Collaborators).

(** C3.  Best-effort delete.  In every state a server can reach, for a
    Delete request that passes the required-field and name checks and whose
    name is registered: when the backend delete call returns without a
    transport error, Delete succeeds and the entry of that name is removed
    from the registry, whether the backend answered true or false.  The one
    backend call carries the name and [force = true]. *)
Theorem delete_best_effort env in_ controller (result : bool) w :
  reachable D (server w) →
  fieldbehavior_ValidateRequiredFields_Delete D in_ = None →
  resourcename_Validate D (delete_Name in_) = None →
  VirtioCtrls (server w) !! delete_Name in_ = Some controller →
  rpc_delete env (delete_params in_) = inr result →
  let w' :=
    with_registry (delete (delete_Name in_))
      (called (controller_virtio_blk_delete (delete_params in_)) w) in
  DeleteVirtioBlk D env in_ w = (Ok mkEmpty, w') ∧
  VirtioCtrls (server w') !! delete_Name in_ = None.
Proof.
  intros Hreach Hreq Hname Hreg Hrpc w'. subst w'.
  apply reachable_registry_wf in Hreach.
  pose proof (Hreach _ _ Hreg) as Hkey. cbn in Hkey.
  split; [|cbn; by rewrite lookup_delete_eq].
  unfold DeleteVirtioBlk, delete_params in *. unfold_M.
  rewrite Hreq, Hname. cbn. rewrite Hreg, Hrpc. cbn. by rewrite Hkey.
Qed.

(** C6.  Delete of an unknown name.  For a Delete request that passes the
    required-field and name checks and whose name is not registered: with
    [allow_missing] set Delete succeeds, without it Delete fails with the
    error "error finding controller <name>"; in both cases the registry and
    the log of backend calls stay as they were. *)
Theorem delete_unknown env in_ w :
  fieldbehavior_ValidateRequiredFields_Delete D in_ = None →
  resourcename_Validate D (delete_Name in_) = None →
  VirtioCtrls (server w) !! delete_Name in_ = None →
  DeleteVirtioBlk D env in_ w =
    (if delete_AllowMissing in_ then Ok mkEmpty
     else Err (fmt_Errorf "error finding controller %s" [delete_Name in_]),
     w).
Proof.
  intros Hreq Hname Hreg. unfold DeleteVirtioBlk. unfold_M.
  rewrite Hreq, Hname. cbn. rewrite Hreg. by destruct (delete_AllowMissing in_).
Qed.

End Delete.

Lemma sample_world_reachable : reachable bridge (server sample_world).
Proof. apply (reachable_serve bridge NewServer []), reachable_new. Qed.

Lemma delete_best_effort_witness :
  DeleteVirtioBlk bridge sample_env sample_delete sample_world =
    (Ok mkEmpty,
     with_registry (delete sample_name)
       (called (controller_virtio_blk_delete (delete_params sample_delete))
          sample_world))
  ∧ VirtioCtrls (server (with_registry (delete sample_name)
       (called (controller_virtio_blk_delete (delete_params sample_delete))
          sample_world)))
      !! sample_name = None.
Proof.
  apply (delete_best_effort bridge sample_env sample_delete
           (with_Name sample_blk sample_name) false sample_world).
  - apply sample_world_reachable.
  - reflexivity.
  - reflexivity.
  - vm_compute. reflexivity.
  - reflexivity.
Defined.

Lemma delete_unknown_witness :
  DeleteVirtioBlk bridge sample_env sample_delete_missing new_world
  = (Ok mkEmpty, new_world)
  ∧
  DeleteVirtioBlk bridge sample_env sample_delete new_world
  = (Err (fmt_Errorf "error finding controller %s" [sample_name]), new_world).
Proof.
  split.
  - apply (delete_unknown bridge sample_env sample_delete_missing);
      reflexivity.
  - apply (delete_unknown bridge sample_env sample_delete); reflexivity.
Defined.

Section Update.

Context (D : Collaborators).

(** C7.  Update ends without a change.  For an Update request whose payload
    carries a name that passes the name check: when the name is registered
    and the field mask is valid for the payload, Update fails with the
    Unimplemented status; when the name is not registered, Update fails with
    the NotFound status, with or without [allow_missing].  In both cases the
    registry and the log of backend calls stay as they were. *)
Theorem update_unimplemented in_ blk w :
  update_VirtioBlk in_ = Some blk →
  resourcename_Validate D (Name blk) = None →
  (∀ volume,
     VirtioCtrls (server w) !! Name blk = Some volume →
     fieldmask_Validate D (update_UpdateMask in_) blk = None →
     UpdateVirtioBlk D in_ w =
       (Err (status_Errorf Unimplemented
               "UpdateVirtioBlk method is not implemented" []), w))
  ∧
  (VirtioCtrls (server w) !! Name blk = None →
     UpdateVirtioBlk D in_ w =
       (Err (status_Errorf NotFound "unable to find key %s" [Name blk]), w)).
Proof.
  intros Hblk Hname. unfold UpdateVirtioBlk. unfold_M.
  rewrite Hblk. cbn. rewrite Hname. cbn.
  split.
  - intros volume Hreg Hmask. by rewrite Hreg, Hmask.
  - intros Hreg. by rewrite Hreg.
Qed.

End Update.

Section Get.

Context (D : Collaborators).

Lemma get_loop_first in_ before r after :
  Forall (λ r', ¬ get_match in_ r') before →
  get_match in_ r →
  get_loop D (path_Base (get_Name in_)) (before ++ r :: after)
  = Some (listed D r).
Proof.
  intros Hbefore Hr.
  induction Hbefore as [|r' before Hr' _ IH]; cbn.
  - by rewrite decide_True.
  - by rewrite decide_False.
Qed.

Lemma get_loop_none in_ result :
  Forall (λ r', ¬ get_match in_ r') result →
  get_loop D (path_Base (get_Name in_)) result = None.
Proof.
  induction 1 as [|r' result Hr' _ IH]; cbn; [done|].
  by rewrite decide_False.
Qed.

(** What the loop returns was built from an entry of the listing. *)
Lemma get_loop_listed resourceID result ctrl :
  get_loop D resourceID result = Some ctrl →
  ∃ r, r ∈ result ∧ ctrl = listed D r.
Proof.
  induction result as [|r result IH]; cbn; [done|].
  case_decide.
  - intros [= <-]. exists r. split; [left|done].
  - intros [r' [??]]%IH. exists r'. split; [by right|done].
Qed.

(** C5.  The existence gate of Get.  For a Get request that passes the
    required-field and name checks: when the name is not registered, Get
    fails with the InvalidArgument status "Could not find Controller: <name>"
    whatever the backend would list, and issues no backend call; when the
    name is registered and the backend listing arrives, Get answers with the
    message built from the first entry whose name is the trailing path
    segment of the requested name and whose type is virtio-blk, and fails
    with the same InvalidArgument status when the listing has no such
    entry. *)
Theorem get_existence_gate env in_ w :
  fieldbehavior_ValidateRequiredFields_Get D in_ = None →
  resourcename_Validate D (get_Name in_) = None →
  (VirtioCtrls (server w) !! get_Name in_ = None →
     GetVirtioBlk D env in_ w = (Err (could_not_find (get_Name in_)), w))
  ∧
  (∀ controller result,
     VirtioCtrls (server w) !! get_Name in_ = Some controller →
     rpc_list env = inr result →
     (∀ before r after,
        result = before ++ r :: after →
        Forall (λ r', ¬ get_match in_ r') before →
        get_match in_ r →
        GetVirtioBlk D env in_ w = (Ok (listed D r), called controller_list w))
     ∧
     (Forall (λ r', ¬ get_match in_ r') result →
        GetVirtioBlk D env in_ w =
          (Err (could_not_find (get_Name in_)), called controller_list w))).
Proof.
  intros Hreq Hname. unfold GetVirtioBlk. unfold_M. rewrite Hreq, Hname. cbn.
  split.
  - intros Hreg. by rewrite Hreg.
  - intros controller result Hreg Hrpc. rewrite Hreg, Hrpc. cbn. split.
    + intros before r after -> Hbefore Hr. by rewrite get_loop_first.
    + intros Hnone. by rewrite get_loop_none.
Qed.

End Get.

Section Stats.

Context (D : Collaborators).

Lemma stats_bdevs_app id bdevs1 bdevs2 :
  stats_bdevs id (bdevs1 ++ bdevs2) =
    match stats_bdevs id bdevs1 with
    | Some response => Some response
    | None => stats_bdevs id bdevs2
    end.
Proof.
  induction bdevs1 as [|r bdevs1 IH]; cbn; [done|]. by case_decide.
Qed.

(** The two nested loops scan the device entries in order. *)
Lemma stats_controllers_devices id controllers :
  stats_controllers id controllers =
    stats_bdevs id (flat_map Bdevs controllers).
Proof.
  induction controllers as [|c controllers IH]; cbn; [done|].
  by rewrite stats_bdevs_app, IH.
Qed.

Lemma stats_bdevs_first id before r after :
  Forall (λ r', BdevName r' ≠ Value id) before →
  BdevName r = Value id →
  stats_bdevs id (before ++ r :: after) = Some (stats_of id r).
Proof.
  intros Hbefore Hr.
  induction Hbefore as [|r' before Hr' _ IH]; cbn.
  - by rewrite decide_True.
  - by rewrite decide_False.
Qed.

Lemma stats_bdevs_none id bdevs :
  Forall (λ r', BdevName r' ≠ Value id) bdevs →
  stats_bdevs id bdevs = None.
Proof.
  induction 1 as [|r' bdevs Hr' _ IH]; cbn; [done|].
  by rewrite decide_False.
Qed.

End Stats.

Section Stats_lookup.

Context (D : Collaborators).

Lemma int32_in_range x : in_int32 x → int32 x = x.
Proof.
  unfold in_int32, int32. intros Hx.
  rewrite Z.mod_small; lia.
Qed.

(** C9, as amended.  Stats lookup.  For a Stats request with a controller
    reference that passes the name check, once the backend statistics
    arrive: when a device entry carries exactly the requested name, Stats
    answers with the read and write counts of the first such entry, in the
    order controller by controller and device by device, each converted to
    a signed 32-bit integer, which is the count itself when the count is in
    that range; when no entry carries the name, Stats fails with the
    InvalidArgument status. *)
Theorem stats_lookup env in_ id result w :
  stats_ControllerId in_ = Some id →
  resourcename_Validate D (Value id) = None →
  rpc_iostat env = inr result →
  (∀ before r after,
     devices result = before ++ r :: after →
     Forall (λ r', BdevName r' ≠ Value id) before →
     BdevName r = Value id →
     VirtioBlkStats D env in_ w =
       (Ok (stats_of id r), called controller_virtio_blk_get_iostat w)
     ∧ (in_int32 (ReadIos r) → in_int32 (WriteIos r) →
        stats_of id r = counts_of id r))
  ∧
  (Forall (λ r', BdevName r' ≠ Value id) (devices result) →
     VirtioBlkStats D env in_ w =
       (Err (could_not_find (Value id)),
        called controller_virtio_blk_get_iostat w)).
Proof.
  intros Hid Hname Hrpc. unfold VirtioBlkStats, devices. unfold_M.
  rewrite Hid. cbn. rewrite Hname. cbn. rewrite Hrpc. cbn.
  rewrite stats_controllers_devices. split.
  - intros before r after -> Hbefore Hr. split.
    + by rewrite stats_bdevs_first.
    + intros Hread Hwrite. unfold stats_of, counts_of.
      by rewrite !int32_in_range.
  - intros Hnone. by rewrite stats_bdevs_none.
Qed.

End Stats_lookup.

Lemma stats_lookup_witness :
  VirtioBlkStats bridge sample_env sample_stats new_world =
    (Ok {| stats_Id := Some {| Value := "Malloc42" |};
           stats_Stats := Some {| ReadOpsCount := 10; WriteOpsCount := 20 |} |},
     called controller_virtio_blk_get_iostat new_world).
Proof.
  refine (proj1 (proj1 (stats_lookup bridge sample_env sample_stats
                    {| Value := "Malloc42" |} _ new_world eq_refl eq_refl
                    eq_refl)
            [ {| BdevName := "Malloc41"; ReadIos := 5; WriteIos := 6 |} ]
            {| BdevName := "Malloc42"; ReadIos := 10; WriteIos := 20 |} []
            eq_refl _ eq_refl)).
  repeat constructor. discriminate.
Defined.

(** C9, as stated, fails: the only device entry of the statistics carries
    the requested name and 2^32 + 10 reads, and Stats answers with 10
    reads. *)
Lemma stats_counts_counterexample :
  busy_bdev ∈ devices {| Controllers :=
      [ {| stat_Name := "VblkEmu0pf0"; Bdevs := [busy_bdev] |} ] |}
  ∧ BdevName busy_bdev = "Malloc42"
  ∧ ¬ ∃ w', VirtioBlkStats bridge busy_env sample_stats new_world
            = (Ok (counts_of {| Value := "Malloc42" |} busy_bdev), w').
Proof.
  split; [by left|]. split; [done|].
  intros [w' H]. vm_compute in H. discriminate H.
Qed.

(** ** Sorting *)

Section sort_Slice_correct.

Context {A : Type} (less : A → A → bool).

(** [less] never holds both ways. *)
Hypothesis less_asym : ∀ x y, less x y = true → less y x = false.


Lemma sift_Permutation x before : sift less x before ≡ₚ x :: before.
Proof.
  induction before as [|y before IH]; cbn; [done|].
  destruct (less x y); [|done].
  rewrite IH. apply Permutation_swap.
Qed.

Lemma sift_HdRel x y before :
  less y x = false → HdRel (descending less) y before →
  HdRel (descending less) y (sift less x before).
Proof.
  intros Hyx Hhd. destruct Hhd as [|z before Hyz]; cbn.
  - by constructor.
  - destruct (less x z); by constructor.
Qed.

Lemma sift_Sorted x before :
  Sorted (descending less) before → Sorted (descending less) (sift less x before).
Proof.
  induction 1 as [|y before Hsorted IH Hhd]; cbn.
  - by repeat constructor.
  - destruct (less x y) eqn:Hxy.
    + constructor; [done|]. apply sift_HdRel; [|done]. by apply less_asym.
    + constructor; [by constructor|]. by constructor.
Qed.

Lemma insertion_Permutation sorted data :
  foldl (λ sorted x, sift less x sorted) sorted data ≡ₚ sorted ++ data.
Proof.
  revert sorted. induction data as [|x data IH]; intros sorted; cbn.
  - by rewrite app_nil_r.
  - rewrite IH, sift_Permutation. cbn. apply Permutation_middle.
Qed.

Lemma insertion_Sorted sorted data :
  Sorted (descending less) sorted →
  Sorted (descending less) (foldl (λ sorted x, sift less x sorted) sorted data).
Proof.
  revert sorted. induction data as [|x data IH]; intros sorted Hs; cbn.
  - done.
  - by apply IH, sift_Sorted.
Qed.

(** [sort.Slice] permutes the slice. *)
Lemma sort_Slice_Permutation data : sort_Slice less data ≡ₚ data.
Proof.
  unfold sort_Slice. by rewrite reverse_Permutation, insertion_Permutation.
Qed.

(** After [sort.Slice] no element is [less] than its left neighbour. *)
Lemma sort_Slice_Sorted data :
  Sorted (λ a b, less b a = false) (sort_Slice less data).
Proof.
  unfold sort_Slice.
  apply (Sorted_reverse (descending less)), insertion_Sorted. constructor.
Qed.

End sort_Slice_correct.

Lemma Sorted_weaken {A} (R1 R2 : relation A) l :
  (∀ a b, R1 a b → R2 a b) → Sorted R1 l → Sorted R2 l.
Proof.
  intros HR. induction 1 as [|a l _ IH Hhd]; constructor; [done|].
  destruct Hhd; constructor. by apply HR.
Qed.

Section Names.

Lemma string_ltb_asym (s1 s2 : string) :
  String.ltb s1 s2 = true → String.ltb s2 s1 = false.
Proof.
  unfold String.ltb. rewrite (String.compare_antisym s2 s1).
  by destruct (String.compare s1 s2).
Qed.

Lemma string_ltb_leb (s1 s2 : string) :
  String.ltb s2 s1 = false ↔ String.leb s1 s2 = true.
Proof.
  unfold String.ltb, String.leb. rewrite (String.compare_antisym s2 s1).
  by destruct (String.compare s1 s2).
Qed.

Lemma string_leb_trans (s1 s2 s3 : string) :
  String.leb s1 s2 = true → String.leb s2 s3 = true →
  String.leb s1 s3 = true.
Proof.
  unfold String.leb.
  destruct (String.compare s1 s2) eqn:H12; [|  |done].
  - apply String.compare_eq_iff in H12 as ->. done.
  - destruct (String.compare s2 s3) eqn:H23; [| |done].
    + apply String.compare_eq_iff in H23 as <-. by rewrite H12.
    + intros _ _.
      apply OrderedTypeEx.String_as_OT.cmp_lt in H12, H23.
      pose proof (OrderedTypeEx.String_as_OT.lt_trans _ _ _ H12 H23) as H13.
      apply OrderedTypeEx.String_as_OT.cmp_lt in H13.
      unfold OrderedTypeEx.String_as_OT.cmp in H13. by rewrite H13.
Qed.

Lemma name_le_trans : Transitive name_le.
Proof. intros a b c. apply string_leb_trans. Qed.

(** [sortVirtioBlks] leaves the messages in ascending order of names. *)
Lemma sortVirtioBlks_sorted virtioBlks :
  StronglySorted name_le (sortVirtioBlks virtioBlks).
Proof.
  apply Sorted_StronglySorted; [apply name_le_trans|].
  unfold sortVirtioBlks.
  eapply Sorted_weaken; [|apply sort_Slice_Sorted].
  - intros a b. apply string_ltb_leb.
  - intros a b. apply string_ltb_asym.
Qed.

Lemma sortVirtioBlks_Permutation virtioBlks :
  sortVirtioBlks virtioBlks ≡ₚ virtioBlks.
Proof. apply sort_Slice_Permutation. Qed.

End Names.

Section List.

Context (D : Collaborators).

(** The loop keeps the virtio-blk entries, in order. *)
Lemma list_loop_filter result Blobarray :
  list_loop D result Blobarray =
    Blobarray ++ (listed D <$> filter is_virtio_blk result).
Proof.
  revert Blobarray. induction result as [|r result IH]; intros acc; cbn.
  - by rewrite app_nil_r.
  - unfold filter, list_filter; cbn. fold (filter is_virtio_blk result).
    unfold is_virtio_blk_dec, is_virtio_blk at 1.
    destruct (decide (ctrl_Type r = "virtio_blk")) as [Hr|Hr]; cbn.
    + rewrite IH. by rewrite <- app_assoc.
    + apply IH.
Qed.

(** One run of [ListVirtioBlks] once the helper has cut the listing. *)
Lemma list_run env in_ w size offset result page (more : bool) :
  server_ExtractPagination D (list_PageSize in_) (list_PageToken in_)
    (Pagination (server w)) = inr (size, offset) →
  rpc_list env = inr result →
  server_LimitPagination D result offset size = Some (page, more) →
  ListVirtioBlks D env in_ w =
    (Ok {| VirtioBlks := page_of D page; NextPageToken := "" |},
     if more
     then with_cursor (uuid_New_String env) (int_add offset size)
            (called controller_list w)
     else called controller_list w).
Proof.
  intros Hextract Hrpc Hlimit. unfold ListVirtioBlks, page_of. unfold_M.
  cbn. rewrite Hextract. cbn. rewrite Hrpc. cbn. rewrite Hlimit.
  rewrite list_loop_filter. by destruct more.
Qed.

(** A successful response is the page of what the helper returned. *)
Lemma list_ok_page env in_ w resp w' :
  ListVirtioBlks D env in_ w = (Ok resp, w') →
  ∃ page, VirtioBlks resp = page_of D page.
Proof.
  unfold ListVirtioBlks, page_of. unfold_M. cbn. intros H.
  split_cases; eexists; by rewrite list_loop_filter.
Qed.

End List.

Section List_properties.

Context (D : Collaborators).

Lemma page_of_Permutation page :
  page_of D page ≡ₚ listed D <$> filter is_virtio_blk page.
Proof. apply sortVirtioBlks_Permutation. Qed.

Lemma name_injective_on (l : list VirtioBlk) a b :
  NoDup (Name <$> l) → a ∈ l → b ∈ l → Name a = Name b → a = b.
Proof.
  induction l as [|x l IH]; cbn; [by intros _ ?%elem_of_nil|].
  rewrite NoDup_cons. intros [Hx Hl] Ha Hb Hab.
  apply elem_of_cons in Ha as [->|Ha]; apply elem_of_cons in Hb as [->|Hb].
  - done.
  - destruct Hx. rewrite Hab. by apply list_elem_of_fmap_2.
  - destruct Hx. rewrite <- Hab. by apply list_elem_of_fmap_2.
  - by apply IH.
Qed.

(** C8.  Ordering of the List response.  The page of every successful List
    response is in ascending order of resource names, whatever order the
    backend delivered its listing in; two successful responses that hold
    the same resources, with pairwise distinct names, are the same page. *)
Theorem list_sorted env in_ w resp w' :
  ListVirtioBlks D env in_ w = (Ok resp, w') →
  StronglySorted name_le (VirtioBlks resp)
  ∧ (∀ env2 in2 w2 resp2 w2',
       ListVirtioBlks D env2 in2 w2 = (Ok resp2, w2') →
       VirtioBlks resp2 ≡ₚ VirtioBlks resp →
       NoDup (Name <$> VirtioBlks resp) →
       VirtioBlks resp2 = VirtioBlks resp).
Proof.
  intros [page Hpage]%list_ok_page.
  assert (StronglySorted name_le (VirtioBlks resp)) as Hsorted.
  { rewrite Hpage. apply sortVirtioBlks_sorted. }
  split; [done|].
  intros env2 in2 w2 resp2 w2' [page2 Hpage2]%list_ok_page Hperm Hnodup.
  apply (StronglySorted_unique_strong name_le); [| |done..].
  - intros a b Ha Hb Hab Hba.
    apply (name_injective_on (VirtioBlks resp)); [done| |done|].
    + by rewrite <- Hperm.
    + by apply String.leb_antisym.
  - rewrite Hpage2. apply sortVirtioBlks_sorted.
Qed.

Lemma listed_VolumeId r : VolumeId (listed D r) = TBD.
Proof. done. Qed.

(** C10.  Every resource of a successful List response and the resource of
    a successful Get response carry the volume reference "TBD", whatever the
    backend lists and whatever the registry holds. *)
Theorem volume_reference_placeholder env w :
  (∀ in_ resp w',
     ListVirtioBlks D env in_ w = (Ok resp, w') →
     Forall (λ ctrl, VolumeId ctrl = TBD) (VirtioBlks resp))
  ∧
  (∀ in_ ctrl w',
     GetVirtioBlk D env in_ w = (Ok ctrl, w') →
     VolumeId ctrl = TBD).
Proof.
  split.
  - intros in_ resp w' [page ->]%list_ok_page.
    rewrite page_of_Permutation. apply Forall_fmap, Forall_forall.
    intros r _. apply listed_VolumeId.
  - intros in_ ctrl w'. unfold GetVirtioBlk. unfold_M. cbn. intros H.
    split_cases.
    match goal with
    | H : get_loop _ _ _ = Some _ |- _ =>
        apply get_loop_listed in H as (r & _ & ->)
    end.
    apply listed_VolumeId.
Qed.

Lemma window_length {A} (l : list A) offset size :
  0 ≤ offset ≤ Z.of_nat (length l) → 0 ≤ size →
  Z.of_nat (length (window l offset size))
  = Z.min size (Z.of_nat (length l) - offset).
Proof.
  intros Hoffset Hsize. unfold window.
  rewrite length_take, length_drop. lia.
Qed.

Lemma window_Forall {A} (P : A → Prop) (l : list A) offset size :
  Forall P l → Forall P (window l offset size).
Proof. intros Hl. by apply Forall_take, Forall_drop. Qed.

Lemma filter_all {A} (P : A → Prop) `{∀ x, Decision (P x)} (l : list A) :
  Forall P l → filter P l = l.
Proof.
  induction 1 as [|x l Hx _ IH]; [done|].
  by rewrite filter_cons_True, IH.
Qed.

Lemma int_add_small a b :
  - 2 ^ 63 ≤ a + b < 2 ^ 63 → int_add a b = a + b.
Proof. intros Hab. unfold int_add. rewrite Z.mod_small; lia. Qed.

(** C2, as amended.  List pagination.  List applies the offset/size window
    to the backend listing as delivered and then keeps the virtio-blk
    entries of the window.  With a helper that returns that window and
    tells whether entries remain beyond it: the page holds the virtio-blk
    entries of the window, sorted; for a listing whose N entries are all
    virtio-blk controllers the page holds min(size, N - offset) resources,
    so K of them on a first call with K < N, and the next K or the remaining
    ones on a later call; when entries remain beyond the window the cursor
    store binds the fresh token to offset + size; on the terminal page the
    cursor store stays as it was and the response carries no token. *)
Theorem list_pagination env in_ w size offset result :
  server_ExtractPagination D (list_PageSize in_) (list_PageToken in_)
    (Pagination (server w)) = inr (size, offset) →
  rpc_list env = inr result →
  0 ≤ offset ≤ Z.of_nat (length result) →
  0 ≤ size →
  server_LimitPagination D result offset size =
    Some (window result offset size,
          bool_decide (offset + size < Z.of_nat (length result))) →
  ∃ resp w',
    ListVirtioBlks D env in_ w = (Ok resp, w')
    ∧ VirtioBlks resp = page_of D (window result offset size)
    ∧ (Forall is_virtio_blk result →
         Z.of_nat (length (VirtioBlks resp))
         = Z.min size (Z.of_nat (length result) - offset))
    ∧ (offset + size < Z.of_nat (length result) →
         w' = with_cursor (uuid_New_String env) (int_add offset size)
                (called controller_list w)
         ∧ (Z.of_nat (length result) < 2 ^ 63 →
            int_add offset size = offset + size))
    ∧ (Z.of_nat (length result) ≤ offset + size →
         w' = called controller_list w ∧ NextPageToken resp = "").
Proof.
  intros Hextract Hrpc Hoffset Hsize Hlimit.
  eexists _, _. split; [by eapply list_run|]. cbn.
  split; [done|]. split; [|split].
  - intros Hall. rewrite page_of_Permutation, length_fmap.
    rewrite filter_all by by apply window_Forall.
    by apply window_length.
  - intros Hmore. rewrite bool_decide_eq_true_2 by done. split; [done|].
    intros Hlen. apply int_add_small. lia.
  - intros Hlast. rewrite bool_decide_eq_false_2 by lia. done.
Qed.

End List_properties.

Lemma update_unimplemented_witness :
  UpdateVirtioBlk bridge sample_update sample_world =
    (Err (status_Errorf Unimplemented
            "UpdateVirtioBlk method is not implemented" []), sample_world)
  ∧
  UpdateVirtioBlk bridge sample_update new_world =
    (Err (status_Errorf NotFound "unable to find key %s" [sample_name]),
     new_world).
Proof.
  split.
  - apply (proj1 (update_unimplemented bridge sample_update
                    (with_Name sample_blk sample_name) sample_world
                    eq_refl eq_refl)
             (with_Name sample_blk sample_name)).
    + vm_compute. reflexivity.
    + reflexivity.
  - apply (proj2 (update_unimplemented bridge sample_update
                    (with_Name sample_blk sample_name) new_world
                    eq_refl eq_refl)).
    reflexivity.
Defined.

Lemma get_existence_gate_witness :
  GetVirtioBlk bridge sample_env sample_get new_world =
    (Err (could_not_find sample_name), new_world)
  ∧
  GetVirtioBlk bridge sample_env sample_get sample_world =
    (Ok (listed bridge sample_ctrl42), called controller_list sample_world).
Proof.
  split.
  - apply (proj1 (get_existence_gate bridge sample_env sample_get new_world
                    eq_refl eq_refl)).
    reflexivity.
  - refine (proj1 (proj2 (get_existence_gate bridge sample_env sample_get
                            sample_world eq_refl eq_refl)
                     (with_Name sample_blk sample_name) sample_listing _
                     eq_refl)
              [ {| ctrl_Name := "nvme0"; ctrl_Type := "nvme";
                   ctrl_PciIndex := 0 |} ]
              sample_ctrl42 [sample_ctrl7] eq_refl _ _).
    + vm_compute. reflexivity.
    + constructor; [|constructor]. intros [_ Htype]. discriminate Htype.
    + split; vm_compute; reflexivity.
Defined.

Lemma list_sorted_witness :
  StronglySorted name_le
    [listed bridge sample_ctrl42; listed bridge sample_ctrl7].
Proof.
  refine (proj1 (list_sorted bridge vblk_env sample_list2 new_world
                   {| VirtioBlks := [listed bridge sample_ctrl42;
                                     listed bridge sample_ctrl7];
                      NextPageToken := "" |}
                   (with_cursor (uuid_New_String vblk_env) 2
                      (called controller_list new_world)) _)).
  vm_compute. reflexivity.
Defined.

Lemma volume_reference_placeholder_witness :
  Forall (λ ctrl, VolumeId ctrl = TBD)
    [listed bridge sample_ctrl42; listed bridge sample_ctrl7]
  ∧ VolumeId (listed bridge sample_ctrl42) = TBD.
Proof.
  split.
  - refine (proj1 (volume_reference_placeholder bridge vblk_env new_world)
              sample_list2
              {| VirtioBlks := [listed bridge sample_ctrl42;
                                listed bridge sample_ctrl7];
                 NextPageToken := "" |}
              (with_cursor (uuid_New_String vblk_env) 2
                 (called controller_list new_world)) _).
    vm_compute. reflexivity.
  - refine (proj2 (volume_reference_placeholder bridge sample_env
                     sample_world)
              sample_get (listed bridge sample_ctrl42)
              (called controller_list sample_world) _).
    vm_compute. reflexivity.
Defined.

Lemma list_pagination_witness :
  ∃ resp w',
    ListVirtioBlks bridge vblk_env sample_list2 new_world = (Ok resp, w')
    ∧ Z.of_nat (length (VirtioBlks resp)) = 2
    ∧ w' = with_cursor (uuid_New_String vblk_env) 2
             (called controller_list new_world).
Proof.
  destruct (list_pagination bridge vblk_env sample_list2 new_world 2 0
              vblk_listing eq_refl eq_refl)
    as (resp & w' & Hrun & _ & Hlen & Hmore & _).
  - vm_compute. split; discriminate.
  - lia.
  - reflexivity.
  - exists resp, w'. split; [exact Hrun|]. split.
    + apply Hlen. repeat constructor.
    + apply Hmore. vm_compute. reflexivity.
Defined.

(** C2, as stated, fails: the backend lists an NVMe controller followed by
    N = 2 virtio-blk controllers and the page size is K = 1; by the claim
    the first call returns the K first virtio-blk entries, and the handler
    returns an empty page. *)
Lemma list_pagination_counterexample :
  rpc_list sample_env = inr sample_listing
  ∧ filter is_virtio_blk sample_listing = [sample_ctrl42; sample_ctrl7]
  ∧ list_PageSize sample_list = 1
  ∧ claimed_page bridge sample_listing 0 1 = [listed bridge sample_ctrl42]
  ∧ (∃ w', ListVirtioBlks bridge sample_env sample_list new_world
           = (Ok {| VirtioBlks := []; NextPageToken := "" |}, w'))
  ∧ ¬ (∃ resp w',
         ListVirtioBlks bridge sample_env sample_list new_world = (Ok resp, w')
         ∧ VirtioBlks resp = claimed_page bridge sample_listing 0 1).
Proof.
  split; [reflexivity|]. split; [reflexivity|]. split; [reflexivity|].
  split; [vm_compute; reflexivity|]. split.
  - eexists. vm_compute. reflexivity.
  - intros (resp & w' & Hrun & Hpage).
    vm_compute in Hrun. injection Hrun as <- _.
    vm_compute in Hpage. discriminate Hpage.
Qed.

(** * Further properties of the handlers *)

Section Create_more.

Context (D : Collaborators).

(** X1.  Create fails without a trace in the server state: whenever
    CreateVirtioBlk does not return a resource (rejected identifier, nil
    payload or field, transport error, empty backend result), the registry
    and the cursor store are as they were. *)
Theorem create_failure_atomic env in_ w :
  (∀ r, (CreateVirtioBlk D env in_ w).1 ≠ Ok r) →
  server (CreateVirtioBlk D env in_ w).2 = server w.
Proof.
  unfold CreateVirtioBlk. unfold_M. cbn. intros Hfail.
  split_cases; try done; by destruct (Hfail _ eq_refl).
Qed.

(** X2.  A successful Create leaves the returned resource registered under
    the derived name and changes nothing else: the registry afterwards is
    the registry before with that one binding, and the cursor store is
    untouched.  In a state a server can reach the returned resource carries
    the derived name. *)
Theorem create_success_effect env in_ w r w' :
  CreateVirtioBlk D env in_ w = (Ok r, w') →
  VirtioCtrls (server w')
  = <[create_name D env in_ := r]> (VirtioCtrls (server w))
  ∧ Pagination (server w') = Pagination (server w)
  ∧ (reachable D (server w) → Name r = create_name D env in_).
Proof.
  unfold CreateVirtioBlk, create_name, create_resourceID.
  intros H. unfold_M. cbn in H.
  destruct (create_VirtioBlk in_) as [blk|] eqn:Hblk; [|by split_cases].
  split_cases; try done; cbn;
    (split; [by rewrite ?insert_id|split; [done|]]);
    try done;
    intros Hwf%reachable_registry_wf;
    match goal with
    | Hreg : VirtioCtrls _ !! _ = Some _ |- _ => apply (Hwf _ _ Hreg)
    end.
Qed.

(** X3.  Create never removes or overwrites an entry of the registry,
    whatever the request and the backend answer. *)
Theorem create_monotone env in_ w :
  VirtioCtrls (server w) ⊆ VirtioCtrls (server (CreateVirtioBlk D env in_ w).2).
Proof.
  unfold CreateVirtioBlk. unfold_M. cbn.
  split_cases; try done; by apply insert_subseteq.
Qed.

(** X4.  Create ignores the name field of the payload: two requests that
    differ in that field only are answered alike and leave the same
    state. *)
Theorem create_ignores_payload_name env blk id name w :
  CreateVirtioBlk D env
    {| create_VirtioBlk := Some (with_Name blk name);
       create_VirtioBlkId := id |} w
  = CreateVirtioBlk D env
      {| create_VirtioBlk := Some blk; create_VirtioBlkId := id |} w.
Proof. unfold CreateVirtioBlk. unfold_M. cbn. by split_cases. Qed.

(** X5.  A payload without a volume reference or without a PCIe endpoint,
    sent under an acceptable identifier whose derived name is not
    registered, makes Create panic before any backend call, with the state
    as it was. *)
Theorem create_missing_field_panics env in_ blk w :
  create_VirtioBlk in_ = Some blk →
  VolumeId blk = None ∨ PcieId blk = None →
  create_id_ok D in_ →
  VirtioCtrls (server w) !! create_name D env in_ = None →
  CreateVirtioBlk D env in_ w = (Panic, w).
Proof.
  intros Hblk Hfield Hid Hreg.
  unfold CreateVirtioBlk, create_name, create_resourceID in *.
  unfold_M. rewrite Hblk. cbn.
  destruct Hid as [Hid|Hid]; case_decide; try done.
  - rewrite Hreg. destruct Hfield as [->| ->]; [done|].
    by destruct (VolumeId blk).
  - rewrite Hid. cbn. rewrite Hreg. destruct Hfield as [->| ->]; [done|].
    by destruct (VolumeId blk).
  - rewrite Hreg. destruct Hfield as [->| ->]; [done|].
    by destruct (VolumeId blk).
Qed.

End Create_more.

Lemma create_failure_atomic_witness :
  server (CreateVirtioBlk bridge failing_env test_create sample_world).2
  = server sample_world.
Proof.
  apply (create_failure_atomic bridge failing_env test_create sample_world).
  intros r. vm_compute. discriminate.
Defined.

Lemma create_success_effect_witness :
  VirtioCtrls (server sample_world)
  = <[sample_name := with_Name sample_blk sample_name]> (VirtioCtrls NewServer)
  ∧ Pagination (server sample_world) = Pagination NewServer
  ∧ (reachable bridge NewServer →
     Name (with_Name sample_blk sample_name) = sample_name).
Proof.
  apply (create_success_effect bridge sample_env sample_create new_world
           (with_Name sample_blk sample_name) sample_world).
  vm_compute. reflexivity.
Defined.

Lemma create_missing_field_panics_witness :
  CreateVirtioBlk bridge sample_env bare_create new_world = (Panic, new_world).
Proof.
  apply (create_missing_field_panics bridge sample_env bare_create bare_blk).
  - reflexivity.
  - left. reflexivity.
  - right. reflexivity.
  - reflexivity.
Defined.

Section Delete_more.

Context (D : Collaborators).

(** One run of Delete on a registered name, in a registry that stores each
    entry under its own name. *)
Lemma delete_registered_run env in_ controller (result : bool) w :
  registry_wf (server w) →
  fieldbehavior_ValidateRequiredFields_Delete D in_ = None →
  resourcename_Validate D (delete_Name in_) = None →
  VirtioCtrls (server w) !! delete_Name in_ = Some controller →
  rpc_delete env (delete_params in_) = inr result →
  DeleteVirtioBlk D env in_ w =
    (Ok mkEmpty,
     with_registry (delete (delete_Name in_))
       (called (controller_virtio_blk_delete (delete_params in_)) w)).
Proof.
  intros Hwf Hreq Hname Hreg Hrpc.
  pose proof (Hwf _ _ Hreg) as Hkey. cbn in Hkey.
  unfold DeleteVirtioBlk, delete_params in *. unfold_M.
  rewrite Hreq, Hname. cbn. rewrite Hreg, Hrpc. cbn. by rewrite Hkey.
Qed.

(** X6.  Delete never panics, and a Delete that returns an error (failed
    validation, unknown name, transport error) leaves the registry and the
    cursor store as they were. *)
Theorem delete_failure_atomic env in_ w :
  (DeleteVirtioBlk D env in_ w).1 ≠ Panic
  ∧ (∀ err, (DeleteVirtioBlk D env in_ w).1 = Err err →
       server (DeleteVirtioBlk D env in_ w).2 = server w).
Proof.
  unfold DeleteVirtioBlk. unfold_M. cbn.
  split; [|intros err]; by split_cases.
Qed.

(** X7.  Delete touches one entry at most: in a state a server can reach,
    the registry after a Delete is the registry before, or the registry
    before without the requested name; the cursor store is never changed. *)
Theorem delete_frame env in_ w :
  reachable D (server w) →
  (VirtioCtrls (server (DeleteVirtioBlk D env in_ w).2)
     = VirtioCtrls (server w)
   ∨ VirtioCtrls (server (DeleteVirtioBlk D env in_ w).2)
     = delete (delete_Name in_) (VirtioCtrls (server w)))
  ∧ Pagination (server (DeleteVirtioBlk D env in_ w).2)
    = Pagination (server w).
Proof.
  intros Hwf%reachable_registry_wf.
  unfold DeleteVirtioBlk. unfold_M. cbn.
  split_cases; try (split; [by left|done]).
  split; [right|done].
  match goal with
  | Hreg : VirtioCtrls _ !! _ = Some _ |- _ =>
      pose proof (Hwf _ _ Hreg) as Hkey; cbn in Hkey; by rewrite Hkey
  end.
Qed.

(** X8.  Create and Delete undo each other on the registry: after a Create
    that registers a name that was not registered, a Delete of the returned
    name that passes validation and reaches the backend brings the registry
    back to what it was before the Create. *)
Theorem create_delete_roundtrip env1 in1 env2 allow_missing result w r w1 :
  let in2 := {| delete_Name := Name r; delete_AllowMissing := allow_missing |} in
  VirtioCtrls (server w) !! create_name D env1 in1 = None →
  CreateVirtioBlk D env1 in1 w = (Ok r, w1) →
  fieldbehavior_ValidateRequiredFields_Delete D in2 = None →
  resourcename_Validate D (Name r) = None →
  rpc_delete env2 (delete_params in2) = inr result →
  ∃ w2,
    DeleteVirtioBlk D env2 in2 w1 = (Ok mkEmpty, w2)
    ∧ VirtioCtrls (server w2) = VirtioCtrls (server w).
Proof.
  intros in2 Hfresh Hcreate Hreq Hname Hrpc.
  assert (Name r = create_name D env1 in1
          ∧ VirtioCtrls (server w1)
            = <[create_name D env1 in1 := r]> (VirtioCtrls (server w)))
    as [Hr Hw1].
  { clear Hreq Hname Hrpc. subst in2.
    unfold CreateVirtioBlk, create_name, create_resourceID in *.
    unfold_M. cbn in Hcreate.
    destruct (create_VirtioBlk in1) as [blk|] eqn:Hblk; [|by split_cases].
    split_cases; try done; congruence. }
  eexists. split.
  - unfold DeleteVirtioBlk, delete_params in *. unfold_M. subst in2. cbn in *.
    rewrite Hreq, Hname. cbn.
    rewrite Hw1, Hr, lookup_insert_eq. cbn. rewrite <- Hr, Hrpc. cbn.
    reflexivity.
  - cbn. rewrite Hw1, Hr. by apply delete_insert_id.
Qed.

(** X9.  After a successful Delete the name is unknown again: in a state a
    server can reach, once Delete has removed a registered name, a second
    Delete of that name succeeds with [allow_missing] and fails with "error
    finding controller <name>" without it, and issues no backend call. *)
Theorem delete_twice env1 env2 in_ controller (result : bool) w :
  reachable D (server w) →
  fieldbehavior_ValidateRequiredFields_Delete D in_ = None →
  resourcename_Validate D (delete_Name in_) = None →
  VirtioCtrls (server w) !! delete_Name in_ = Some controller →
  rpc_delete env1 (delete_params in_) = inr result →
  ∃ w1,
    DeleteVirtioBlk D env1 in_ w = (Ok mkEmpty, w1)
    ∧ DeleteVirtioBlk D env2 in_ w1 =
        (if delete_AllowMissing in_ then Ok mkEmpty
         else Err (fmt_Errorf "error finding controller %s" [delete_Name in_]),
         w1).
Proof.
  intros Hwf%reachable_registry_wf Hreq Hname Hreg Hrpc.
  eexists. split; [by eapply delete_registered_run|].
  unfold DeleteVirtioBlk. unfold_M. rewrite Hreq, Hname. cbn.
  rewrite lookup_delete_eq. by destruct (delete_AllowMissing in_).
Qed.

End Delete_more.

Section Update_more.

Context (D : Collaborators).

(** X10.  Update never returns a resource and never changes anything: for
    every request and every state the outcome is an error or a panic, and
    the registry, the cursor store and the log of backend calls are as they
    were. *)
Theorem update_never_succeeds in_ w :
  (UpdateVirtioBlk D in_ w).2 = w
  ∧ ∀ r, (UpdateVirtioBlk D in_ w).1 ≠ Ok r.
Proof.
  unfold UpdateVirtioBlk. unfold_M. cbn.
  split; [|intros r]; by split_cases.
Qed.

End Update_more.

Lemma delete_frame_witness :
  (VirtioCtrls (server (DeleteVirtioBlk bridge delete_failing_env
                          sample_delete sample_world).2)
     = VirtioCtrls (server sample_world)
   ∨ VirtioCtrls (server (DeleteVirtioBlk bridge delete_failing_env
                            sample_delete sample_world).2)
     = delete (delete_Name sample_delete) (VirtioCtrls (server sample_world)))
  ∧ Pagination (server (DeleteVirtioBlk bridge delete_failing_env
                          sample_delete sample_world).2)
    = Pagination (server sample_world).
Proof.
  apply (delete_frame bridge delete_failing_env sample_delete sample_world).
  apply sample_world_reachable.
Defined.

Lemma create_delete_roundtrip_witness :
  ∃ w2,
    DeleteVirtioBlk bridge sample_env sample_delete sample_world
    = (Ok mkEmpty, w2)
    ∧ VirtioCtrls (server w2) = VirtioCtrls (server new_world).
Proof.
  apply (create_delete_roundtrip bridge sample_env sample_create sample_env
           false false new_world (with_Name sample_blk sample_name)
           sample_world).
  - reflexivity.
  - vm_compute. reflexivity.
  - reflexivity.
  - reflexivity.
  - reflexivity.
Defined.

Lemma delete_twice_witness :
  ∃ w1,
    DeleteVirtioBlk bridge sample_env sample_delete sample_world
    = (Ok mkEmpty, w1)
    ∧ DeleteVirtioBlk bridge delete_failing_env sample_delete w1
      = (Err (fmt_Errorf "error finding controller %s" [sample_name]), w1).
Proof.
  apply (delete_twice bridge sample_env delete_failing_env sample_delete
           (with_Name sample_blk sample_name) false sample_world).
  - apply sample_world_reachable.
  - reflexivity.
  - reflexivity.
  - vm_compute. reflexivity.
  - reflexivity.
Defined.

Section List_more.

Context (D : Collaborators).

(** X11.  A List that does not answer with a page (invalid pagination
    parameters, unknown token, transport error, panic of the window helper)
    leaves the cursor store and the registry as they were: no token is bound
    on a failed call. *)
Theorem list_failure_atomic env in_ w :
  (∀ resp, (ListVirtioBlks D env in_ w).1 ≠ Ok resp) →
  server (ListVirtioBlks D env in_ w).2 = server w.
Proof.
  unfold ListVirtioBlks. unfold_M. cbn. intros Hfail.
  split_cases; try done; by destruct (Hfail _ eq_refl).
Qed.

(** X12.  The page of a successful List holds the virtio-blk entries of what
    the window helper returned, each exactly once, and nothing else: every
    resource of the page is built from a virtio-blk entry of the window, and
    the page is no longer than the window. *)
Theorem list_page_members env in_ w resp w' :
  ListVirtioBlks D env in_ w = (Ok resp, w') →
  ∃ size offset result window more,
    rpc_list env = inr result
    ∧ server_LimitPagination D result offset size = Some (window, more)
    ∧ VirtioBlks resp ≡ₚ listed D <$> filter is_virtio_blk window
    ∧ (∀ ctrl, ctrl ∈ VirtioBlks resp ↔
               ∃ r, r ∈ window ∧ is_virtio_blk r ∧ ctrl = listed D r)
    ∧ (length (VirtioBlks resp) ≤ length window)%nat.
Proof.
  unfold ListVirtioBlks. unfold_M. cbn. intros H.
  destruct (server_ExtractPagination D (list_PageSize in_) (list_PageToken in_)
              (Pagination (server w))) as [perr|[size offset]] eqn:Hextract;
    [done|]. cbn in H.
  destruct (rpc_list env) as [err|result] eqn:Hrpc; [done|]. cbn in H.
  destruct (server_LimitPagination D result offset size)
    as [[window more]|] eqn:Hlimit; [|done]. cbn in H.
  assert (VirtioBlks resp ≡ₚ listed D <$> filter is_virtio_blk window)
    as Hperm.
  { destruct more; simplify_eq/=; rewrite list_loop_filter;
      apply sortVirtioBlks_Permutation. }
  exists size, offset, result, window, more.
  split; [done|]. split; [done|]. split; [done|]. split.
  - intros ctrl. rewrite Hperm, list_elem_of_fmap. split.
    + intros (r & -> & [Hr Hin]%list_elem_of_filter). by exists r.
    + intros (r & Hin & Hr & ->). exists r. split; [done|].
      by apply list_elem_of_filter.
  - rewrite Hperm, length_fmap. apply length_filter.
Qed.


(** X14.  List reads the registry only, and writes at most one cursor: the
    registry is unchanged, and the cursor store afterwards is the store
    before, or the store before with the drawn UUID bound to an offset;
    every other token keeps its offset. *)
Theorem list_state_effect env in_ w :
  VirtioCtrls (server (ListVirtioBlks D env in_ w).2)
  = VirtioCtrls (server w)
  ∧ (Pagination (server (ListVirtioBlks D env in_ w).2)
       = Pagination (server w)
     ∨ ∃ offset,
         Pagination (server (ListVirtioBlks D env in_ w).2)
         = <[uuid_New_String env := offset]> (Pagination (server w)))
  ∧ (∀ token, token ≠ uuid_New_String env →
       Pagination (server (ListVirtioBlks D env in_ w).2) !! token
       = Pagination (server w) !! token).
Proof.
  unfold ListVirtioBlks. unfold_M. cbn.
  split_cases; (split; [done|split; [by eauto|]]);
    intros token Htoken; by rewrite ?lookup_insert_ne.
Qed.

End List_more.

Lemma list_failure_atomic_witness :
  server (ListVirtioBlks bridge list_failing_env sample_list2 sample_world).2
  = server sample_world.
Proof.
  apply (list_failure_atomic bridge list_failing_env sample_list2
           sample_world).
  intros resp. vm_compute. discriminate.
Defined.

Lemma list_page_members_witness :
  ∃ size offset result window more,
    rpc_list sample_env = inr result
    ∧ server_LimitPagination bridge result offset size = Some (window, more)
    ∧ [listed bridge sample_ctrl42]
      ≡ₚ listed bridge <$> filter is_virtio_blk window
    ∧ (∀ ctrl, ctrl ∈ [listed bridge sample_ctrl42] ↔
               ∃ r, r ∈ window ∧ is_virtio_blk r ∧ ctrl = listed bridge r)
    ∧ (length [listed bridge sample_ctrl42] ≤ length window)%nat.
Proof.
  apply (list_page_members bridge sample_env sample_list2 new_world
           {| VirtioBlks := [listed bridge sample_ctrl42];
              NextPageToken := "" |}
           (with_cursor (uuid_New_String sample_env) 2
              (called controller_list new_world))).
  vm_compute. reflexivity.
Defined.


Section Get_more.

Context (D : Collaborators).

Lemma get_loop_sound resourceID result ctrl :
  get_loop D resourceID result = Some ctrl →
  ∃ r, r ∈ result ∧ ctrl_Name r = resourceID ∧ is_virtio_blk r
       ∧ ctrl = listed D r.
Proof.
  induction result as [|r result IH]; cbn; [done|].
  case_decide as Hr.
  - intros [= <-]. exists r. destruct Hr. by repeat split; [left|..].
  - intros (r' & ? & ? & ? & ?)%IH. exists r'. by repeat split; [right|..].
Qed.

(** X15.  Get only returns what the backend lists for a registered name: a
    successful Get was asked for a registered name, issued one listing call
    and changed no state, and its resource is built from a backend entry of
    type virtio-blk whose name is the trailing path segment of the requested
    name; the resource is named by the canonical name of that segment. *)
Theorem get_sound env in_ w ctrl w' :
  GetVirtioBlk D env in_ w = (Ok ctrl, w') →
  is_Some (VirtioCtrls (server w) !! get_Name in_)
  ∧ w' = called controller_list w
  ∧ (∃ result r,
       rpc_list env = inr result ∧ r ∈ result ∧ get_match in_ r
       ∧ ctrl = listed D r)
  ∧ Name ctrl = server_ResourceIDToVolumeName D (path_Base (get_Name in_)).
Proof.
  unfold GetVirtioBlk. unfold_M. cbn. intros H.
  destruct (fieldbehavior_ValidateRequiredFields_Get D in_); [done|].
  destruct (resourcename_Validate D (get_Name in_)); [done|]. cbn in H.
  destruct (VirtioCtrls (server w) !! get_Name in_) eqn:Hreg; [|done].
  destruct (rpc_list env) as [err|result] eqn:Hrpc; [done|]. cbn in H.
  destruct (get_loop D (path_Base (get_Name in_)) result) eqn:Hloop; [|done].
  simplify_eq/=.
  apply get_loop_sound in Hloop as (r & Hin & Hname & Htype & ->).
  split; [by eexists|]. split; [done|]. split.
  - by exists result, r.
  - cbn. by rewrite Hname.
Qed.

(** X16.  Get after Create answers under the same name.  In a state a server
    can reach, with a naming function whose trailing path segment is the
    identifier: once Create has returned a resource, a Get of that
    resource's name that passes validation, against a backend listing whose
    first virtio-blk entry named by the identifier is [r], answers with the
    resource built from [r], and that resource carries the name Create
    returned. *)
Theorem create_then_get env1 in1 env2 w created w1 before r after :
  let in2 := {| get_Name := Name created |} in
  reachable D (server w) →
  CreateVirtioBlk D env1 in1 w = (Ok created, w1) →
  path_Base (create_name D env1 in1) = create_resourceID env1 in1 →
  fieldbehavior_ValidateRequiredFields_Get D in2 = None →
  resourcename_Validate D (Name created) = None →
  rpc_list env2 = inr (before ++ r :: after) →
  Forall (λ r', ¬ get_match in2 r') before →
  ctrl_Name r = create_resourceID env1 in1 →
  is_virtio_blk r →
  GetVirtioBlk D env2 in2 w1 = (Ok (listed D r), called controller_list w1)
  ∧ Name (listed D r) = Name created.
Proof.
  intros in2 Hreach Hcreate Hbase Hreq Hname Hrpc Hbefore Hr Htype.
  pose proof (create_ok_registered D _ _ _ _ _ Hcreate) as Hreg.
  assert (Name created = create_name D env1 in1) as Hcreated.
  { apply reachable_registry_wf in Hreach.
    assert (registry_wf (server w1)) as Hwf1.
    { replace w1 with (CreateVirtioBlk D env1 in1 w).2 by by rewrite Hcreate.
      by apply create_registry_wf. }
    apply (Hwf1 _ _ Hreg). }
  split.
  - unfold GetVirtioBlk. unfold_M. subst in2. cbn in *.
    rewrite Hreq, Hname. cbn. rewrite Hcreated, Hreg, Hrpc. cbn.
    rewrite <- Hcreated.
    rewrite (get_loop_first D {| get_Name := Name created |}); [done|done|].
    split; [|done]. cbn. by rewrite Hcreated, Hbase.
  - cbn. rewrite Hr, Hcreated. done.
Qed.

End Get_more.

Section Stats_more.

Context (D : Collaborators).

Lemma int32_range x : in_int32 (int32 x).
Proof.
  unfold in_int32, int32.
  pose proof (Z.mod_pos_bound (x + 2 ^ 31) (2 ^ 32)). lia.
Qed.

Lemma stats_bdevs_sound id bdevs response :
  stats_bdevs id bdevs = Some response →
  ∃ r, r ∈ bdevs ∧ BdevName r = Value id ∧ response = stats_of id r.
Proof.
  induction bdevs as [|r bdevs IH]; cbn; [done|].
  case_decide as Hr.
  - intros [= <-]. exists r. by repeat split; [left|..].
  - intros (r' & ? & ? & ?)%IH. exists r'. by repeat split; [right|..].
Qed.

(** X17.  Stats only reports a device of the requested name: a successful
    Stats echoes the controller reference of the request, its counts are
    the 32-bit conversions of the counters of a device entry that carries
    exactly the requested name, both counts lie in the signed 32-bit range,
    and the server state is as it was. *)
Theorem stats_sound env in_ w response w' :
  VirtioBlkStats D env in_ w = (Ok response, w') →
  server w' = server w
  ∧ ∃ id result r,
      stats_ControllerId in_ = Some id
      ∧ rpc_iostat env = inr result
      ∧ r ∈ devices result
      ∧ BdevName r = Value id
      ∧ response = stats_of id r
      ∧ stats_Id response = stats_ControllerId in_
      ∧ in_int32 (int32 (ReadIos r)) ∧ in_int32 (int32 (WriteIos r)).
Proof.
  unfold VirtioBlkStats, devices. unfold_M. cbn. intros H.
  destruct (stats_ControllerId in_) as [id|] eqn:Hid; [|done]. cbn in H.
  destruct (resourcename_Validate D (Value id)); [done|]. cbn in H.
  destruct (rpc_iostat env) as [err|result] eqn:Hrpc; [done|]. cbn in H.
  rewrite stats_controllers_devices in H.
  destruct (stats_bdevs id (flat_map Bdevs (Controllers result))) eqn:Hscan;
    [|done].
  simplify_eq/=.
  apply stats_bdevs_sound in Hscan as (r & Hin & Hname & ->).
  split; [done|]. exists id, result, r.
  repeat split; try done; apply int32_range.
Qed.

End Stats_more.

Lemma get_sound_witness :
  is_Some (VirtioCtrls (server sample_world) !! get_Name sample_get)
  ∧ called controller_list sample_world = called controller_list sample_world
  ∧ (∃ result r,
       rpc_list sample_env = inr result ∧ r ∈ result ∧ get_match sample_get r
       ∧ listed bridge sample_ctrl42 = listed bridge r)
  ∧ Name (listed bridge sample_ctrl42)
    = server_ResourceIDToVolumeName bridge (path_Base (get_Name sample_get)).
Proof.
  apply (get_sound bridge sample_env sample_get sample_world).
  vm_compute. reflexivity.
Defined.

Lemma create_then_get_witness :
  GetVirtioBlk bridge sample_env sample_get sample_world
  = (Ok (listed bridge sample_ctrl42), called controller_list sample_world)
  ∧ Name (listed bridge sample_ctrl42) = sample_name.
Proof.
  refine (create_then_get bridge sample_env sample_create sample_env
            new_world (with_Name sample_blk sample_name) sample_world
            [ {| ctrl_Name := "nvme0"; ctrl_Type := "nvme";
                 ctrl_PciIndex := 0 |} ]
            sample_ctrl42 [sample_ctrl7] _ _ _ _ _ _ _ _ _).
  - apply reachable_new.
  - vm_compute. reflexivity.
  - reflexivity.
  - reflexivity.
  - reflexivity.
  - reflexivity.
  - constructor; [|constructor]. intros [_ Htype]. discriminate Htype.
  - reflexivity.
  - reflexivity.
Defined.

Lemma stats_sound_witness :
  server (called controller_virtio_blk_get_iostat new_world)
  = server new_world
  ∧ ∃ id result r,
      stats_ControllerId sample_stats = Some id
      ∧ rpc_iostat sample_env = inr result
      ∧ r ∈ devices result
      ∧ BdevName r = Value id
      ∧ stats_of {| Value := "Malloc42" |}
          {| BdevName := "Malloc42"; ReadIos := 10; WriteIos := 20 |}
        = stats_of id r
      ∧ stats_Id (stats_of {| Value := "Malloc42" |}
          {| BdevName := "Malloc42"; ReadIos := 10; WriteIos := 20 |})
        = stats_ControllerId sample_stats
      ∧ in_int32 (int32 (ReadIos r)) ∧ in_int32 (int32 (WriteIos r)).
Proof.
  apply (stats_sound bridge sample_env sample_stats new_world).
  vm_compute. reflexivity.
Defined.

Section Server_more.

Context (D : Collaborators).

(** X18.  Backend call discipline.  Serving one request appends to the log
    of backend calls and never rewrites it; a request issues one call at
    most, of its own method: Create a create call with backend type "spdk"
    and emulation manager "mlx5_0", Delete a delete call for the requested
    name with [force] set, List and Get a listing call, Stats a statistics
    call, Update none. *)
Theorem backend_call_discipline env req w :
  ∃ l, calls (serve D env req w) = calls w ++ l ∧ own_calls req l.
Proof.
  destruct req as [in_|in_|in_|in_|in_|in_]; cbn.
  - unfold CreateVirtioBlk. unfold_M. cbn.
    split_cases;
      first [ by exists []; rewrite app_nil_r; split; [|left]
            | eexists [_]; split; [done|right; by eexists] ].
  - unfold DeleteVirtioBlk, delete_params. unfold_M. cbn.
    split_cases;
      first [ by exists []; rewrite app_nil_r; split; [|left]
            | eexists [_]; split; [done|by right] ].
  - unfold UpdateVirtioBlk. unfold_M. cbn.
    split_cases; by exists []; rewrite app_nil_r.
  - unfold ListVirtioBlks. unfold_M. cbn.
    split_cases;
      first [ by exists []; rewrite app_nil_r; split; [|left]
            | eexists [_]; split; [done|by right] ].
  - unfold GetVirtioBlk. unfold_M. cbn.
    split_cases;
      first [ by exists []; rewrite app_nil_r; split; [|left]
            | eexists [_]; split; [done|by right] ].
  - unfold VirtioBlkStats. unfold_M. cbn.
    split_cases;
      first [ by exists []; rewrite app_nil_r; split; [|left]
            | eexists [_]; split; [done|by right] ].
Qed.

(** X19.  Who writes what.  Only Create and Delete change the registry and
    only List changes the cursor store: serving Update, List, Get or Stats
    leaves the registry as it was, and serving Create, Delete, Update, Get
    or Stats leaves the cursor store as it was. *)
Theorem state_writers env req w :
  (writes_registry req = false →
     VirtioCtrls (server (serve D env req w)) = VirtioCtrls (server w))
  ∧ (writes_cursors req = false →
     Pagination (server (serve D env req w)) = Pagination (server w)).
Proof.
  destruct req as [in_|in_|in_|in_|in_|in_]; cbn; (split; [|]); try done;
    intros _.
  - unfold CreateVirtioBlk. unfold_M. cbn. by split_cases.
  - unfold DeleteVirtioBlk. unfold_M. cbn. by split_cases.
  - by rewrite update_world.
  - by rewrite update_world.
  - apply list_VirtioCtrls.
  - by rewrite get_server.
  - by rewrite get_server.
  - by rewrite stats_server.
  - by rewrite stats_server.
Qed.

Lemma serve_entries_ok env req w :
  map_Forall (registry_entry_ok D) (VirtioCtrls (server w)) →
  map_Forall (registry_entry_ok D) (VirtioCtrls (server (serve D env req w))).
Proof.
  intros Hok. destruct req as [in_|in_|in_|in_|in_|in_]; cbn.
  - unfold CreateVirtioBlk. unfold_M. cbn.
    split_cases; try done;
      (apply map_Forall_insert_2; [|done]);
      (split; [done|]); (split; [by eexists|]); by split.
  - unfold DeleteVirtioBlk. unfold_M. cbn.
    split_cases; try done; by apply map_Forall_delete.
  - by rewrite update_world.
  - by rewrite list_VirtioCtrls.
  - by rewrite get_server.
  - by rewrite stats_server.
Qed.

(** X20.  Registry invariant.  In every state a server can reach, each
    entry of the registry is stored under the name it carries, that name is
    the canonical name of some identifier, and the entry has its volume
    reference and its PCIe endpoint set. *)
Theorem registry_entries_invariant s :
  reachable D s → map_Forall (registry_entry_ok D) (VirtioCtrls s).
Proof.
  induction 1 as [|s cs env req _ IH].
  - apply map_Forall_empty.
  - by apply serve_entries_ok.
Qed.

End Server_more.

Section Path.

Lemma strip_trailing_slashes_segment (id : string) :
  id ≠ "" → has_slash id = false → strip_trailing_slashes id = id.
Proof.
  induction id as [|c id IH]; [done|]. intros _. cbn.
  intros [Hc Hid]%orb_false_elim. apply bool_decide_eq_false in Hc.
  destruct id as [|c' id].
  - cbn. by rewrite decide_False.
  - rewrite IH by done. done.
Qed.

Lemma strip_trailing_slashes_app (dir id : string) :
  id ≠ "" → has_slash id = false →
  strip_trailing_slashes (dir +:+ String slash id) = dir +:+ String slash id.
Proof.
  intros Hne Hid. induction dir as [|c dir IH].
  - change ("" +:+ String slash id) with (String slash id).
    change (strip_trailing_slashes (String slash id))
      with (match strip_trailing_slashes id with
            | EmptyString =>
                if decide (slash = slash) then EmptyString
                else String slash EmptyString
            | rest' => String slash rest'
            end).
    rewrite strip_trailing_slashes_segment by done. by destruct id.
  - change (String c dir +:+ String slash id)
      with (String c (dir +:+ String slash id)).
    change (strip_trailing_slashes (String c (dir +:+ String slash id)))
      with (match strip_trailing_slashes (dir +:+ String slash id) with
            | EmptyString =>
                if decide (c = slash) then EmptyString
                else String c EmptyString
            | rest' => String c rest'
            end).
    rewrite IH. by destruct dir.
Qed.

Lemma has_slash_app (dir rest : string) :
  has_slash (dir +:+ String slash rest) = true.
Proof.
  induction dir as [|c dir IH].
  - change ("" +:+ String slash rest) with (String slash rest). cbn.
    by rewrite bool_decide_eq_true_2.
  - change (String c dir +:+ String slash rest)
      with (String c (dir +:+ String slash rest)).
    change (has_slash (String c (dir +:+ String slash rest)))
      with (bool_decide (c = slash) || has_slash (dir +:+ String slash rest)).
    rewrite IH. apply orb_true_r.
Qed.

Lemma after_last_slash_app (dir id : string) :
  has_slash id = false →
  after_last_slash (dir +:+ String slash id) = id.
Proof.
  intros Hid. induction dir as [|c dir IH].
  - change ("" +:+ String slash id) with (String slash id). cbn.
    rewrite Hid. by rewrite decide_True.
  - change (String c dir +:+ String slash id)
      with (String c (dir +:+ String slash id)).
    change (after_last_slash (String c (dir +:+ String slash id)))
      with (if has_slash (dir +:+ String slash id)
            then after_last_slash (dir +:+ String slash id)
            else if decide (c = slash) then dir +:+ String slash id
                 else String c (dir +:+ String slash id)).
    by rewrite has_slash_app.
Qed.

(** X21.  [path.Base] returns the last segment: for every directory part
    and every non-empty identifier without a slash, the base of
    "<dir>/<id>" is the identifier; and the base of a path is never the
    empty string. *)
Theorem path_Base_last_segment (dir id : string) :
  (id ≠ "" → has_slash id = false →
     path_Base (dir +:+ String slash id) = id)
  ∧ path_Base dir ≠ "".
Proof.
  split.
  - intros Hne Hid. unfold path_Base.
    rewrite decide_False by by destruct dir.
    rewrite strip_trailing_slashes_app by done.
    rewrite after_last_slash_app by done. by rewrite decide_False.
  - unfold path_Base. by repeat case_decide.
Qed.

End Path.

Lemma state_writers_witness :
  VirtioCtrls (server (serve bridge vblk_env (List sample_list2) sample_world))
  = VirtioCtrls (server sample_world)
  ∧ Pagination (server (serve bridge sample_env (Delete sample_delete)
                          sample_world))
    = Pagination (server sample_world).
Proof.
  split.
  - apply (proj1 (state_writers bridge vblk_env (List sample_list2)
                    sample_world)).
    reflexivity.
  - apply (proj2 (state_writers bridge sample_env (Delete sample_delete)
                    sample_world)).
    reflexivity.
Defined.

Lemma registry_entries_invariant_witness :
  map_Forall (registry_entry_ok bridge) (VirtioCtrls (server sample_world)).
Proof.
  apply (registry_entries_invariant bridge (server sample_world)).
  apply sample_world_reachable.
Defined.

Lemma path_Base_last_segment_witness :
  path_Base ("//storage.opiproject.org/volumes" +:+ String slash "virtio-blk-42")
  = "virtio-blk-42".
Proof.
  apply (proj1 (path_Base_last_segment "//storage.opiproject.org/volumes"
                  "virtio-blk-42")).
  - discriminate.
  - reflexivity.
Defined.

Lemma delete_failure_atomic_witness :
  server (DeleteVirtioBlk bridge delete_failing_env sample_delete
            sample_world).2
  = server sample_world.
Proof.
  apply (proj2 (delete_failure_atomic bridge delete_failing_env sample_delete
                  sample_world)
           (foreign_error "spdk" "some internal error")).
  vm_compute. reflexivity.
Defined.

Lemma list_state_effect_witness :
  Pagination (server (ListVirtioBlks bridge vblk_env sample_list2
                        sample_world).2) !! "another-token"
  = Pagination (server sample_world) !! "another-token".
Proof.
  apply (proj2 (proj2 (list_state_effect bridge vblk_env sample_list2
                         sample_world))).
  discriminate.
Defined.
